(** * templater: the templates manager of the VS Code extension

    A shallow embedding of [src/TemplatesManager.ts].  The class works on
    three things that live outside of it: Node's [path] module, Node's [fs]
    module and the JavaScript engine that loads a template module.  Each of
    them gets a small executable model first ([Path], [Js], [Fs]); the
    methods of the class follow, written in a state-and-exception monad the
    way the TypeScript reads. *)

From Stdlib Require Import ZArith Ascii String.
From stdpp Require Import base option list strings gmap fin_maps sorting.

Local Open Scope string_scope.
Local Open Scope Z_scope.

(** ** Node's [path] module (POSIX flavour) *)

Module Path.

Definition CHAR_FORWARD_SLASH : ascii := "/"%char.
Definition CHAR_DOT : ascii := "."%char.

Definition isSep (c : ascii) : bool := Ascii.eqb c CHAR_FORWARD_SLASH.
Definition isDot (c : ascii) : bool := Ascii.eqb c CHAR_DOT.

(** [String.prototype.slice] for indices that are in range. *)
Definition slice (s : string) (from to : Z) : string :=
  String.substring (Z.to_nat from) (Z.to_nat (to - from)) s.

Definition strlen (s : string) : Z := Z.of_nat (String.length s).

(** *** [path.extname]

    The loop of [posix.extname] runs over the characters from the last one
    to the first; [extname_loop] receives them in that order together with
    the index [i] of the head. *)

Record ExtScan := mkExtScan {
  startDot : Z;
  startPart : Z;
  ext_end : Z;
  ext_matchedSlash : bool;
  preDotState : Z
}.

Fixpoint extname_loop (rev_chars : list ascii) (i : Z) (st : ExtScan) : ExtScan :=
  match rev_chars with
  | [] => st
  | code :: rest =>
      if isSep code then
        if negb (ext_matchedSlash st) then
          mkExtScan (startDot st) (i + 1) (ext_end st) (ext_matchedSlash st) (preDotState st)
        else extname_loop rest (i - 1) st
      else
        let st1 :=
          if ext_end st =? -1
          then mkExtScan (startDot st) (startPart st) (i + 1) false (preDotState st)
          else st in
        let st2 :=
          if isDot code then
            if startDot st1 =? -1
            then mkExtScan i (startPart st1) (ext_end st1) (ext_matchedSlash st1) (preDotState st1)
            else if negb (preDotState st1 =? 1)
            then mkExtScan (startDot st1) (startPart st1) (ext_end st1) (ext_matchedSlash st1) 1
            else st1
          else if negb (startDot st1 =? -1)
          then mkExtScan (startDot st1) (startPart st1) (ext_end st1) (ext_matchedSlash st1) (-1)
          else st1 in
        extname_loop rest (i - 1) st2
  end.

Definition extname (path : string) : string :=
  let st := extname_loop (rev (list_ascii_of_string path)) (strlen path - 1)
              (mkExtScan (-1) 0 (-1) true 0) in
  if (startDot st =? -1) || (ext_end st =? -1) || (preDotState st =? 0)
     || ((preDotState st =? 1) && (startDot st =? ext_end st - 1)
         && (startDot st =? startPart st + 1))
  then ""
  else slice path (startDot st) (ext_end st).

(** *** [path.basename]

    Two loops, as in [posix.basename]: one that also strips [suffix] and one
    for the call without a (usable) suffix. *)

Record BaseScan := mkBaseScan {
  base_start : Z;
  base_end : Z;
  base_matchedSlash : bool;
  extIdx : Z;
  firstNonSlashEnd : Z
}.

Definition charAt (s : string) (i : Z) : option ascii :=
  if i <? 0 then None else String.get (Z.to_nat i) s.

Fixpoint basename_suffix_loop (suffix : string) (rev_chars : list ascii) (i : Z)
    (st : BaseScan) : BaseScan :=
  match rev_chars with
  | [] => st
  | code :: rest =>
      if isSep code then
        if negb (base_matchedSlash st) then
          mkBaseScan (i + 1) (base_end st) (base_matchedSlash st) (extIdx st)
            (firstNonSlashEnd st)
        else basename_suffix_loop suffix rest (i - 1) st
      else
        let st1 :=
          if firstNonSlashEnd st =? -1
          then mkBaseScan (base_start st) (base_end st) false (extIdx st) (i + 1)
          else st in
        let st2 :=
          if 0 <=? extIdx st1 then
            if bool_decide (charAt suffix (extIdx st1) = Some code) then
              if extIdx st1 - 1 =? -1
              then mkBaseScan (base_start st1) i (base_matchedSlash st1)
                     (extIdx st1 - 1) (firstNonSlashEnd st1)
              else mkBaseScan (base_start st1) (base_end st1) (base_matchedSlash st1)
                     (extIdx st1 - 1) (firstNonSlashEnd st1)
            else mkBaseScan (base_start st1) (firstNonSlashEnd st1)
                   (base_matchedSlash st1) (-1) (firstNonSlashEnd st1)
          else st1 in
        basename_suffix_loop suffix rest (i - 1) st2
  end.

Fixpoint basename_loop (rev_chars : list ascii) (i : Z) (st : BaseScan) : BaseScan :=
  match rev_chars with
  | [] => st
  | code :: rest =>
      if isSep code then
        if negb (base_matchedSlash st) then
          mkBaseScan (i + 1) (base_end st) (base_matchedSlash st) (extIdx st)
            (firstNonSlashEnd st)
        else basename_loop rest (i - 1) st
      else if base_end st =? -1 then
        basename_loop rest (i - 1)
          (mkBaseScan (base_start st) (i + 1) false (extIdx st) (firstNonSlashEnd st))
      else basename_loop rest (i - 1) st
  end.

(** [basename path suffix]; the call with one argument is [basename path ""]
    (an empty suffix takes the same branch as an absent one). *)
Definition basename (path suffix : string) : string :=
  let chars := rev (list_ascii_of_string path) in
  if (0 <? strlen suffix) && (strlen suffix <=? strlen path) then
    if String.eqb suffix path then ""
    else
      let st := basename_suffix_loop suffix chars (strlen path - 1)
                  (mkBaseScan 0 (-1) true (strlen suffix - 1) (-1)) in
      let e :=
        if base_start st =? base_end st then firstNonSlashEnd st
        else if base_end st =? -1 then strlen path
        else base_end st in
      slice path (base_start st) e
  else
    let st := basename_loop chars (strlen path - 1) (mkBaseScan 0 (-1) true 0 (-1)) in
    if base_end st =? -1 then "" else slice path (base_start st) (base_end st).

(** *** [path.join]

    [posix.join] glues the non-empty arguments with a separator and
    normalises the result: empty and [.] segments disappear, a [..] segment
    removes the segment before it. *)

Fixpoint split_segments (cs : list ascii) (cur : list ascii) : list string :=
  match cs with
  | [] => [string_of_list_ascii (rev cur)]
  | c :: rest =>
      if isSep c then string_of_list_ascii (rev cur) :: split_segments rest []
      else split_segments rest (c :: cur)
  end.

(** The segments kept so far are held last-first. *)
Definition push_segment (allowAboveRoot : bool) (kept : list string) (seg : string)
    : list string :=
  if String.eqb seg "" || String.eqb seg "." then kept
  else if String.eqb seg ".." then
    match kept with
    | top :: below =>
        if String.eqb top ".." then
          (if allowAboveRoot then ".." :: kept else kept)
        else below
    | [] => if allowAboveRoot then [".."] else []
    end
  else seg :: kept.

Fixpoint join_with (sep : string) (parts : list string) : string :=
  match parts with
  | [] => ""
  | [p] => p
  | p :: rest => p +:+ sep +:+ join_with sep rest
  end.

Definition normalizeString (path : string) (allowAboveRoot : bool) : string :=
  join_with "/"
    (rev (fold_left (push_segment allowAboveRoot)
            (split_segments (list_ascii_of_string path) []) [])).

Definition normalize (path : string) : string :=
  if String.eqb path "" then "."
  else
    let isAbsolute := bool_decide (charAt path 0 = Some CHAR_FORWARD_SLASH) in
    let trailingSeparator :=
      bool_decide (charAt path (strlen path - 1) = Some CHAR_FORWARD_SLASH) in
    let p := normalizeString path (negb isAbsolute) in
    let p :=
      if String.eqb p "" then
        (if isAbsolute then "" else if trailingSeparator then "./" else ".")
      else if trailingSeparator then p +:+ "/" else p in
    if isAbsolute then "/" +:+ p else p.

Definition join (parts : list string) : string :=
  match filter (fun p => p ≠ "") parts with
  | [] => "."
  | ps => normalize (join_with "/" ps)
  end.

(** *** [path.dirname] *)

Fixpoint dirname_loop (rev_chars : list ascii) (i : Z) (matchedSlash : bool) : Z :=
  match rev_chars with
  | [] => -1
  | code :: rest =>
      if i <? 1 then -1
      else if isSep code then
        if negb matchedSlash then i else dirname_loop rest (i - 1) matchedSlash
      else dirname_loop rest (i - 1) false
  end.

Definition dirname (path : string) : string :=
  if String.eqb path "" then "."
  else
    let hasRoot := bool_decide (charAt path 0 = Some CHAR_FORWARD_SLASH) in
    let e := dirname_loop (rev (list_ascii_of_string path)) (strlen path - 1) true in
    if e =? -1 then (if hasRoot then "/" else ".")
    else if hasRoot && (e =? 1) then "//"
    else slice path 0 e.

End Path.

(** ** JavaScript values that are thrown, and completions *)

Module Js.

Inductive ErrorClass := EError | ESyntaxError | ETypeError | ERangeError | EReferenceError.

Definition className (c : ErrorClass) : string :=
  match c with
  | EError => "Error"
  | ESyntaxError => "SyntaxError"
  | ETypeError => "TypeError"
  | ERangeError => "RangeError"
  | EReferenceError => "ReferenceError"
  end.

(** What a [throw] statement can carry: an error object, a string, or one of
    the two values that have no properties. *)
Inductive Value :=
  | ErrorObject (cls : ErrorClass) (message : string)
  | StringValue (s : string)
  | Null
  | Undefined.

(** The outcome of evaluating a piece of code. *)
Inductive Completion (A : Type) :=
  | Return (a : A)
  | Throw (e : Value).
Arguments Return {A} a.
Arguments Throw {A} e.

(** [new Error(msg)], [new SyntaxError(msg)]. *)
Definition newError (msg : string) : Value := ErrorObject EError msg.
Definition newSyntaxError (msg : string) : Value := ErrorObject ESyntaxError msg.

(** [e instanceof SyntaxError]. *)
Definition instanceofSyntaxError (e : Value) : bool :=
  match e with
  | ErrorObject ESyntaxError _ => true
  | _ => false
  end.

(** [e.message], read only after [instanceofSyntaxError] answered [true]. *)
Definition message (e : Value) : string :=
  match e with
  | ErrorObject _ m => m
  | _ => "undefined"
  end.

(** [e.toString()]: [Error.prototype.toString] for error objects, the string
    itself for a string, a [TypeError] for [null] and [undefined]. *)
Definition toString (e : Value) : Completion string :=
  match e with
  | ErrorObject c m =>
      Return (if String.eqb m "" then className c else className c +:+ ": " +:+ m)
  | StringValue s => Return s
  | Null =>
      Throw (ErrorObject ETypeError "Cannot read properties of null (reading 'toString')")
  | Undefined =>
      Throw (ErrorObject ETypeError
               "Cannot read properties of undefined (reading 'toString')")
  end.

(** [haystack.includes(needle)]. *)
Fixpoint includes (haystack needle : string) : bool :=
  String.prefix needle haystack
  || match haystack with
     | EmptyString => false
     | String _ rest => includes rest needle
     end.

End Js.

Export Js(Completion, Return, Throw).

(** ** Node's [fs] module

    The file system is a finite map from paths to nodes.  A path is looked up
    as it is written: the model resolves neither symbolic links nor relative
    paths against a working directory.  A call fails the way the operating
    system makes it fail when the node is missing, is of the wrong kind, or
    has no parent directory.  These are the failures that follow from the
    shape of the tree.  The system can refuse a call for other reasons
    (permissions, a read-only volume, a name it does not accept, a full
    disk), and those are not in the model: what is proved of a call that
    creates or writes is therefore stated on the result of [mkdirSync] and
    [writeFileSync], never on the shape of the tree alone. *)

Module Fs.

Inductive Node :=
  | File (content : string)
  | Directory.

#[global] Instance Node_eq_dec : EqDecision Node.
Proof. solve_decision. Defined.

Record ErrnoException := mkErrno { code : string; errno_message : string }.

Definition errno (c description syscall path : string) : ErrnoException :=
  mkErrno c (c +:+ ": " +:+ description +:+ ", " +:+ syscall +:+ " '" +:+ path +:+ "'").

Definition ENOENT := errno "ENOENT" "no such file or directory".
Definition EEXIST := errno "EEXIST" "file already exists".
Definition EISDIR := errno "EISDIR" "illegal operation on a directory".
Definition ENOTDIR := errno "ENOTDIR" "not a directory".

(** A system error is an [Error] object when it is thrown. *)
Definition thrown (e : ErrnoException) : Js.Value :=
  Js.ErrorObject Js.EError (errno_message e).

Definition existsSync (fs : gmap string Node) (path : string) : bool :=
  bool_decide (is_Some (fs !! path)).

Definition readFileSync (fs : gmap string Node) (path : string)
    : ErrnoException + string :=
  match fs !! path with
  | Some (File content) => inr content
  | Some Directory => inl (EISDIR "read" path)
  | None => inl (ENOENT "open" path)
  end.

(** The directory a new entry at [path] goes into. *)
Definition parentOf (fs : gmap string Node) (path : string) : option Node :=
  fs !! Path.dirname path.

Definition writeFileSync (fs : gmap string Node) (path content : string)
    : ErrnoException + gmap string Node :=
  match fs !! path with
  | Some Directory => inl (EISDIR "open" path)
  | _ =>
      match parentOf fs path with
      | Some Directory => inr (<[path := File content]> fs)
      | Some (File _) => inl (ENOTDIR "open" path)
      | None => inl (ENOENT "open" path)
      end
  end.

(** [fs.mkdirSync(path)] without the [recursive] option. *)
Definition mkdirSync (fs : gmap string Node) (path : string)
    : ErrnoException + gmap string Node :=
  match fs !! path with
  | Some _ => inl (EEXIST "mkdir" path)
  | None =>
      match parentOf fs path with
      | Some Directory => inr (<[path := Directory]> fs)
      | Some (File _) => inl (ENOTDIR "mkdir" path)
      | None => inl (ENOENT "mkdir" path)
      end
  end.

(** The names of the entries directly inside [path], in the order in which
    Node hands them over on a POSIX system: sorted by the bytes of the
    name. *)
Definition readdir (fs : gmap string Node) (path : string)
    : ErrnoException + list string :=
  match fs !! path with
  | Some Directory =>
      inr (merge_sort String.le
             ((λ k, Path.basename k "")
                <$> filter (λ k, k ≠ path ∧ Path.dirname k = path) (map_to_list fs).*1))
  | Some (File _) => inl (ENOTDIR "scandir" path)
  | None => inl (ENOENT "scandir" path)
  end.

End Fs.

(** ** The world the extension runs in, and the monad of its methods *)

Inductive LogLevel := info | warn | error.

Record World := mkWorld {
  fs : gmap string Fs.Node;          (* the disk *)
  state : gmap string string;        (* what ContextManager.saveState stored *)
  logged : list (string * LogLevel)  (* what ContextManager.log received, oldest first *)
}.

(** A method takes the world and finishes normally or by throwing; the world
    it leaves behind is kept in both cases, since a [throw] undoes nothing. *)
Definition M (A : Type) : Type := World → Completion A * World.

Definition ret {A} (a : A) : M A := λ w, (Return a, w).

Definition bind {A B} (m : M A) (k : A → M B) : M B :=
  λ w, match m w with
       | (Return a, w') => k a w'
       | (Throw e, w') => (Throw e, w')
       end.

Definition throw {A} (e : Js.Value) : M A := λ w, (Throw e, w).

(** [try { body } catch (e) { handler }]. *)
Definition try_catch {A} (body : M A) (handler : Js.Value → M A) : M A :=
  λ w, match body w with
       | (Return a, w') => (Return a, w')
       | (Throw e, w') => handler e w'
       end.

(** A synchronous [fs] call that only reads. *)
Definition fs_read {A} (f : gmap string Fs.Node → A) : M A :=
  λ w, (Return (f (fs w)), w).

(** A synchronous [fs] call that returns a value or throws a system error. *)
Definition fs_try {A} (f : gmap string Fs.Node → Fs.ErrnoException + A) : M A :=
  λ w, match f (fs w) with
       | inr a => (Return a, w)
       | inl e => (Throw (Fs.thrown e), w)
       end.

(** A synchronous [fs] call that changes the disk or throws a system error. *)
Definition fs_update (f : gmap string Fs.Node → Fs.ErrnoException + gmap string Fs.Node)
    : M unit :=
  λ w, match f (fs w) with
       | inr fs' => (Return (), mkWorld fs' (state w) (logged w))
       | inl e => (Throw (Fs.thrown e), w)
       end.

(** The result of evaluating an expression, put back into the flow. *)
Definition complete {A} (c : Completion A) : M A := λ w, (c, w).

Declare Scope js_scope.
Delimit Scope js_scope with js.
Notation "x <- m ;; k" := (bind m (λ x, k))
  (at level 100, m at next level, right associativity) : js_scope.
Notation "m ;; k" := (bind m (λ _, k))
  (at level 100, right associativity) : js_scope.
Local Open Scope js_scope.

(** ** Collaborators of the class *)

(** Modelled from the spec: [ContextManager] ([src/ContextManager.ts] is not
    among the sources).  The spec describes a process-wide store that caches
    the default skeleton, and messages that are reported and never change the
    flow: [saveState] stores a value under a key, [useState] gives back the
    value stored under a key ([undefined], here [None], when there is none),
    [log] records a message with its level. *)
Module ContextManager.

Definition log (msg : string) (level : LogLevel) : M unit :=
  λ w, (Return (), mkWorld (fs w) (state w) (logged w ++ [(msg, level)])).

Definition saveState (key value : string) : M unit :=
  λ w, (Return (), mkWorld (fs w) (<[key := value]> (state w)) (logged w)).

Definition useState (key : string) : M (option string) :=
  λ w, (Return (state w !! key), w).

End ContextManager.

(** Modelled from the spec: [Configuration] ([src/Configuration.ts] is not
    among the sources).  Spec, section 6: [read(key, default) -> value], the
    configured value when the key is set and the default otherwise; the core
    never writes a setting. *)
Module Configuration.

Definition read {A} (settings : gmap string A) (key : string) (default : A) : A :=
  match settings !! key with
  | Some v => v
  | None => default
  end.

End Configuration.

(** The fields that [./types] declares, as the class reads and writes them. *)
Record TTemplate := mkTemplate {
  name : string;
  filename : string;
  path : string
}.

#[global] Instance TTemplate_eq_dec : EqDecision TTemplate.
Proof. solve_decision. Defined.

Record TCreatedFile := mkCreatedFile {
  fileName : string;
  extension : string;
  directoryFolderName : string;
  directoryPath : string
}.

Record TAuthor := mkAuthor {
  author_name : string;
  author_email : string
}.

Record TTemplateOptions := mkTemplateOptions {
  createdFile : TCreatedFile;
  author : TAuthor;
  customOptions : list (string * string)
}.

(** The function a template module exports, with the type [./types] gives it:
    options in, a string out.  It is user code: it returns the text of the new
    file or throws.  The model gives it no access to the disk and no other
    result than a string, so nothing below speaks of what a template's own
    code does to the disk. *)
Definition TTemplateModuleRender : Type := TTemplateOptions → Completion string.

(** What the extension host provides: the directory the extension is
    installed in, the user's settings, and the JavaScript engine, which turns
    the source text of a module into what the module exports or fails while
    loading it. *)
Record Host := mkHost {
  __dirname : string;
  settings : gmap string string;
  settings_customOptions : gmap string (list (string * string));
  evalModule : string → Completion TTemplateModuleRender
}.

(** [require(path)]: a missing module is an [Error], anything else is up to the
    engine.  Two things Node does are not modelled: its module cache (every
    call here loads the file as it is on disk) and the names it tries when
    nothing is at [path] itself ([path.js], a directory's [index.js]). *)
Definition require (host : Host) (path : string) : M TTemplateModuleRender :=
  λ w, match fs w !! path with
       | Some (Fs.File source) => (evalModule host source, w)
       | _ => (Throw (Js.newError ("Cannot find module '" +:+ path +:+ "'")), w)
       end.

(** ** [Map<string, TTemplate>]

    A JavaScript [Map] remembers the order in which keys were first set. *)
Module JsMap.

Definition t (V : Type) : Type := list (string * V).

Definition empty {V} : t V := [].

Fixpoint get {V} (m : t V) (key : string) : option V :=
  match m with
  | [] => None
  | (k, v) :: rest => if String.eqb k key then Some v else get rest key
  end.

Definition has {V} (m : t V) (key : string) : bool :=
  match get m key with Some _ => true | None => false end.

Fixpoint set {V} (m : t V) (key : string) (value : V) : t V :=
  match m with
  | [] => [(key, value)]
  | (k, v) :: rest =>
      if String.eqb k key then (k, value) :: rest else (k, v) :: set rest key value
  end.

Definition keys {V} (m : t V) : list string := m.*1.

Definition size {V} (m : t V) : nat := length m.

End JsMap.

(** How a promise ends. *)
Inductive Settled (A : Type) :=
  | Resolved (a : A)
  | Rejected (reason : Fs.ErrnoException).
Arguments Resolved {A} a.
Arguments Rejected {A} reason.

(** ** [class TemplatesManager] *)

Definition TEMPLATE_EXTENSION : string := ".js".

Definition newline : string := String (ascii_of_nat 10) "".

Section TemplatesManager.

Variable host : Host.

(** Mount a template directory full path. *)
Definition templatesDirPath : string :=
  Configuration.read (settings host) "templatesDir"
    (Path.join [__dirname host; "templates"]).

(** Mount a template name with full path. *)
Definition templateFilePath (templateName : string) : string :=
  Path.join [templatesDirPath; templateName +:+ TEMPLATE_EXTENSION].

(** Verify if a template directory exists. *)
Definition existsTemplatesDir : M bool :=
  fs_read (λ d, Fs.existsSync d templatesDirPath).

(** Verify if a template already exists. *)
Definition existsTemplate (templateName : string) : M bool :=
  fs_read (λ d, Fs.existsSync d (templateFilePath templateName)).

(** Create a templates directory. *)
Definition createTemplatesDirIfNotExists : M unit :=
  try_catch
    (present <- existsTemplatesDir;;
     (if negb present then fs_update (λ d, Fs.mkdirSync d templatesDirPath)
      else ret ());;
     ContextManager.log
       ("Templates Directory created on path: " +:+ templatesDirPath +:+ ".") info)
    (λ e,
       ContextManager.log
         "A error ocurred when trying create a templates directory." error;;
       throw (Js.newError "A error ocurred when trying create a templates directory.")).

(** Read a module template file rendering internal content. *)
Definition renderTemplateContent (template : TTemplate) (options : TTemplateOptions)
    : M string :=
  content <-
    try_catch
      (templateRender <- require host (path template);;
       try_catch
         (complete (templateRender options))
         (λ e,
            text <- complete (Js.toString e);;
            ContextManager.log ("Your template has sintax errors: " +:+ text) warn;;
            text' <- complete (Js.toString e);;
            throw (Js.newSyntaxError ("Your template has sintax errors: " +:+ text'))))
      (λ e,
         let _error :=
           if Js.instanceofSyntaxError e then Js.message e
           else "An error as ocurred rendering a template." in
         ContextManager.log _error error;;
         throw (Js.newError _error));;
  ContextManager.log ("Template Content: " +:+ newline +:+ content) info;;
  ret content.

(** The object literal [templateOptions] of [createNewFileBasedOnTemplate]. *)
Definition templateOptions (newFileName createFileDirectoryPath : string)
    : TTemplateOptions := {|
  createdFile := {|
    fileName := Path.basename newFileName (Path.extname newFileName);
    extension := Path.extname newFileName;
    directoryFolderName := Path.basename createFileDirectoryPath "";
    directoryPath := createFileDirectoryPath
  |};
  author := {|
    author_name := Configuration.read (settings host) "author.name" "";
    author_email := Configuration.read (settings host) "author.email" ""
  |};
  customOptions := Configuration.read (settings_customOptions host) "customOptions" []
|}.

(** Manage a creation of new file based on template. *)
Definition createNewFileBasedOnTemplate (template : TTemplate) (newFileName : string)
    (createFileDirectoryPath : string) : M string :=
  known <- existsTemplate (name template);;
  if known then
    let newFileNameWithPath := Path.join [createFileDirectoryPath; newFileName] in
    directoryExists <- fs_read (λ d, Fs.existsSync d createFileDirectoryPath);;
    if directoryExists then
      templateContent <-
        renderTemplateContent template
          (templateOptions newFileName createFileDirectoryPath);;
      fs_update (λ d, Fs.writeFileSync d newFileNameWithPath templateContent);;
      ret newFileNameWithPath
    else
      ContextManager.log "The directory to create a file not exists." warn;;
      throw (Js.newError "The directory to create a file not exists.")
  else
    ContextManager.log "Inexistent template." warn;;
    throw (Js.newError "Inexistent template.").

(** Returns the template render estructure default with module exports.
    [templateDefault.length] is read from a string or from [undefined]; the
    latter throws a [TypeError]. *)
Definition getTemplateRenderEstructure : M string :=
  present <- existsTemplate "default";;
  templateDefault <-
    (if present
     then text <- fs_try (λ d, Fs.readFileSync d (templateFilePath "default"));;
          ret (Some text)
     else ContextManager.useState "defaultTemplate");;
  match templateDefault with
  | None =>
      throw (Js.ErrorObject Js.ETypeError
               "Cannot read properties of undefined (reading 'length')")
  | Some text =>
      if Nat.eqb (String.length text) 0 then
        ContextManager.log "Sorry, Cannot retrieve a template renderer default." warn;;
        throw (Js.newError "Sorry, Cannot retrieve a template renderer default.")
      else ret text
  end.

(** Create a template file on templates directory. *)
Definition createFileTemplate (templateName content : string) : M string :=
  taken <- existsTemplate templateName;;
  (if taken then
     ContextManager.log
       "The template name already exists, please choose other name." warn;;
     throw (Js.newError "The template name already exists, please choose other name.")
   else ret ());;
  createTemplatesDirIfNotExists;;
  fs_update (λ d, Fs.writeFileSync d (templateFilePath templateName) content);;
  ret (templateFilePath templateName).

(** Manage a creation of new template file with template content renderized. *)
Definition createNewFileTemplate (templateName : string) : M string :=
  content <- getTemplateRenderEstructure;;
  createFileTemplate templateName content.

Definition constructor : M unit :=
  skeleton <- getTemplateRenderEstructure;;
  ContextManager.saveState "defaultTemplate" skeleton.

(** The body of [filesTemplate.forEach] in [useTemplates]. *)
Definition addTemplate (templatesDir : string) (templates : JsMap.t TTemplate)
    (templateFile : string) : JsMap.t TTemplate :=
  let templateName := Path.basename templateFile (Path.extname templateFile) in
  if negb (JsMap.has templates templateName) then
    JsMap.set templates templateName {|
      name := templateName;
      filename := templateFile;
      path := Path.join [templatesDir; templateFile]
    |}
  else templates.

(** The callback that [useTemplates] hands to [fs.readdir]; [error.cause] is
    not set on a system error and prints as [undefined]. *)
Definition onReaddir (listing : Fs.ErrnoException + list string)
    : M (Settled (JsMap.t TTemplate)) :=
  match listing with
  | inl e =>
      ContextManager.log (Fs.errno_message e +:+ "undefined") error;;
      ret (Rejected e)
  | inr filesTemplate =>
      let templatesDir := templatesDirPath in
      ret (Resolved (fold_left (addTemplate templatesDir) filesTemplate JsMap.empty))
  end.

(** Hook to use/get templates existents. *)
Definition useTemplates : M (Settled (JsMap.t TTemplate)) :=
  listing <- fs_read (λ d, Fs.readdir d templatesDirPath);;
  onReaddir listing.

(** The object literal [platformsCommands] of
    [openTemplatesDirectoryInFileExplorer], in the order of its keys. *)
Definition platformsCommands : list (string * string) :=
  [ ("win32", "explorer"); ("linux", "xdg-open"); ("darwin", "open") ].

(** Open a templates folder in file eplorer of OS.  [platform] is what
    [os.platform()] answers; [exec] is [child_process.exec], of which the
    method only sees whether the call itself returns or throws. *)
Definition openTemplatesDirectoryInFileExplorer (platform : string)
    (exec : string → Completion unit) : M unit :=
  present <- existsTemplatesDir;;
  (if negb present then
     ContextManager.log "Templates directory not found." warn;;
     throw (Js.newError "Templates directory not found.")
   else ret ());;
  (if negb (bool_decide (platform ∈ platformsCommands.*1)) then
     ContextManager.log "Cannot open Templates Directory. (Unknown Platform)" warn;;
     throw (Js.newError "Cannot open Templates Directory. (Unknown Platform)")
   else ret ());;
  let command :=
    match JsMap.get platformsCommands platform with
    | Some c => c
    | None => "undefined"
    end in
  let templatesDirectory := templatesDirPath in
  try_catch
    (complete (exec (command +:+ " " +:+ templatesDirectory)))
    (λ e,
       ContextManager.log "Cannot open Templates Directory. (Internal Error)" error;;
       throw (Js.newError "Cannot open Templates Directory. (Internal Error)")).

End TemplatesManager.

Arguments Path.join : simpl never.
Arguments Path.basename : simpl never.
Arguments Path.extname : simpl never.
Arguments Path.dirname : simpl never.

(** The outcome of a method and the world it leaves. *)
Definition outcome {A} (m : M A) (w : World) : Completion A := (m w).1.
Definition worldAfter {A} (m : M A) (w : World) : World := (m w).2.

(** The world after some more messages went to the log. *)
Definition logging (w : World) (entries : list (string * LogLevel)) : World :=
  mkWorld (fs w) (state w) (logged w ++ entries).

(** The template name the listing gives to a file: its name without the
    extension, the way [addTemplate] computes it. *)
Definition stem (templateFile : string) : string :=
  Path.basename templateFile (Path.extname templateFile).

(** A name that holds no path separator. *)
Definition plainName (n : string) : Prop :=
  Forall (λ c, Path.isSep c = false) (list_ascii_of_string n).

#[global] Instance plainName_dec n : Decision (plainName n).
Proof. unfold plainName. apply _. Defined.

(** The catalog entry [addTemplate] builds for a file. *)
Definition entryOf (templatesDir templateFile : string) : TTemplate := {|
  name := stem templateFile;
  filename := templateFile;
  path := Path.join [templatesDir; templateFile]
|}.

(** The first file of a listing whose stem is [key]. *)
Definition firstWithStem (key : string) (files : list string) : option string :=
  List.find (λ f, String.eqb (stem f) key) files.

(** The messages of the class. *)
Definition MSG_SYNTAX_PREFIX : string := "Your template has sintax errors: ".
Definition MSG_RENDER : string := "An error as ocurred rendering a template.".
Definition MSG_INEXISTENT : string := "Inexistent template.".
Definition MSG_NO_DIRECTORY : string := "The directory to create a file not exists.".
Definition MSG_COLLISION : string :=
  "The template name already exists, please choose other name.".
Definition MSG_MKDIR : string :=
  "A error ocurred when trying create a templates directory.".
Definition MSG_NO_DEFAULT : string :=
  "Sorry, Cannot retrieve a template renderer default.".

(** ** A small installation to run the methods on *)

Module Demo.

Definition greetSource : string :=
  "module.exports = (o) => 'Hello, ' + o.createdFile.fileName;".
Definition boomSource : string :=
  "module.exports = () => { throw new Error('boom'); };".
Definition nullSource : string := "module.exports = () => { throw null; };".
Definition brokenSource : string := "module.exports = (o) => }{".
Definition absentSource : string := "module.exports = require('./absent');".

(** An engine that knows five module texts. *)
Definition engine (source : string) : Completion TTemplateModuleRender :=
  if String.eqb source greetSource then
    Return (λ o, Return ("Hello, " +:+ fileName (createdFile o)))
  else if String.eqb source boomSource then
    Return (λ _, Throw (Js.newError "boom"))
  else if String.eqb source nullSource then
    Return (λ _, Throw Js.Null)
  else if String.eqb source brokenSource then
    Throw (Js.newSyntaxError "Unexpected token '}'")
  else if String.eqb source absentSource then
    Throw (Js.newError "Cannot find module './absent'")
  else Return (λ _, Return source).

Definition host : Host := {|
  __dirname := "/ext/out";
  settings := ∅;
  settings_customOptions := ∅;
  evalModule := engine
|}.

(** The same host with the templates directory configured elsewhere. *)
Definition hostAt (templatesDir : string) : Host := {|
  __dirname := "/ext/out";
  settings := {[ "templatesDir" := templatesDir ]};
  settings_customOptions := ∅;
  evalModule := engine
|}.

Definition onDisk (nodes : list (string * Fs.Node)) : World :=
  mkWorld (list_to_map nodes) ∅ [].

Definition installed : list (string * Fs.Node) :=
  [ ("/", Fs.Directory); ("/ext", Fs.Directory); ("/ext/out", Fs.Directory);
    ("/work", Fs.Directory); ("/work/notes.txt", Fs.File "old notes") ].

(** No templates directory yet. *)
Definition fresh : World := onDisk installed.

(** A templates directory with four modules and a text file. *)
Definition stocked : World :=
  onDisk (installed ++
    [ ("/ext/out/templates", Fs.Directory);
      ("/ext/out/templates/greet.js", Fs.File greetSource);
      ("/ext/out/templates/boom.js", Fs.File boomSource);
      ("/ext/out/templates/null.js", Fs.File nullSource);
      ("/ext/out/templates/broken.js", Fs.File brokenSource);
      ("/ext/out/templates/readme.txt", Fs.File "not a module") ]).

(** A templates directory whose [default] template is an empty file. *)
Definition emptyDefault : World :=
  onDisk (installed ++
    [ ("/ext/out/templates", Fs.Directory);
      ("/ext/out/templates/default.js", Fs.File "") ]).

(** A templates directory in which two files share the name [a]. *)
Definition duplicates : World :=
  onDisk (installed ++
    [ ("/ext/out/templates", Fs.Directory);
      ("/ext/out/templates/a.ext", Fs.File "first");
      ("/ext/out/templates/b.ext", Fs.File "second");
      ("/ext/out/templates/a.ext2", Fs.File "third") ]).

Definition template (templateName : string) : TTemplate := {|
  name := templateName;
  filename := templateName +:+ ".js";
  path := "/ext/out/templates/" +:+ templateName +:+ ".js"
|}.

(** A templates directory whose [default] template has a body, and a world in
    which only the cache knows a skeleton. *)
Definition skeleton : string := "module.exports = (o) => '// ' + o.createdFile.fileName;".

Definition withDefault : World :=
  onDisk (installed ++
    [ ("/ext/out/templates", Fs.Directory);
      ("/ext/out/templates/default.js", Fs.File skeleton) ]).

Definition cachedOnly : World :=
  mkWorld (fs fresh) {[ "defaultTemplate" := skeleton ]} [].

(** A templates directory that holds a directory and a file without
    extension beside a template. *)
Definition nested : World :=
  onDisk (installed ++
    [ ("/ext/out/templates", Fs.Directory);
      ("/ext/out/templates/greet.js", Fs.File greetSource);
      ("/ext/out/templates/shared", Fs.Directory);
      ("/ext/out/templates/shared/part.js", Fs.File greetSource);
      ("/ext/out/templates/LICENSE", Fs.File "MIT") ]).

Definition refuses : string → Completion unit :=
  λ _, Throw (Js.newError "spawn ENOMEM").

End Demo.

(** ** The models at work *)

(** The examples of the Node documentation for [path]. *)
Example extname_examples :
  Path.extname "index.html" = ".html"
  ∧ Path.extname "index.coffee.md" = ".md"
  ∧ Path.extname "index." = "."
  ∧ Path.extname "index" = ""
  ∧ Path.extname ".index" = ""
  ∧ Path.extname ".index.md" = ".md".
Proof. repeat split; vm_compute; reflexivity. Qed.

Example basename_examples :
  Path.basename "/foo/bar/baz/asdf/quux.html" "" = "quux.html"
  ∧ Path.basename "/foo/bar/baz/asdf/quux.html" ".html" = "quux"
  ∧ Path.basename "aaa.html" "a.html" = "aa"
  ∧ Path.basename "/work/" "" = "work".
Proof. repeat split; vm_compute; reflexivity. Qed.

Example join_examples :
  Path.join ["/foo"; "bar"; "baz/asdf"; "quux"; ".."] = "/foo/bar/baz/asdf"
  ∧ Path.join ["/ext/out"; "templates"] = "/ext/out/templates"
  ∧ Path.join ["out/"; "a.txt"] = "out/a.txt"
  ∧ Path.join [""; ""] = ".".
Proof. repeat split; vm_compute; reflexivity. Qed.

Example dirname_examples :
  Path.dirname "/foo/bar/baz/asdf/quux" = "/foo/bar/baz/asdf"
  ∧ Path.dirname "/ext/out/templates/a.js" = "/ext/out/templates"
  ∧ Path.dirname "templates" = "."
  ∧ Path.dirname "/ext" = "/".
Proof. repeat split; vm_compute; reflexivity. Qed.

Example stem_examples :
  stem "a.ext" = "a" ∧ stem "a.ext2" = "a" ∧ stem "b.ext" = "b"
  ∧ stem "archive.tar.gz" = "archive.tar" ∧ stem ".hidden" = ".hidden".
Proof. repeat split; vm_compute; reflexivity. Qed.

(** Section 8 of the spec, end to end: the template [greet] and the file name
    [world.txt] give a file that holds exactly ["Hello, world"]. *)
Example greet_world :
  outcome (createNewFileBasedOnTemplate Demo.host (Demo.template "greet")
             "world.txt" "/work") Demo.stocked = Return "/work/world.txt"
  ∧ fs (worldAfter (createNewFileBasedOnTemplate Demo.host (Demo.template "greet")
                      "world.txt" "/work") Demo.stocked) !! "/work/world.txt"
    = Some (Fs.File "Hello, world").
Proof. split; vm_compute; reflexivity. Qed.

(** A template that throws [null]: [e.toString()] fails inside the inner
    [catch], and what reaches the caller is the generic error. *)
Example render_thrown_null :
  outcome (renderTemplateContent Demo.host (Demo.template "null")
             (templateOptions Demo.host "world.txt" "/work")) Demo.stocked
  = Throw (Js.newError "An error as ocurred rendering a template.").
Proof. vm_compute; reflexivity. Qed.

(** Listing a directory that is not there rejects the promise with the system
    error and logs its message. *)
Example useTemplates_without_directory :
  useTemplates Demo.host Demo.fresh
  = (Return (Rejected (Fs.ENOENT "scandir" "/ext/out/templates")),
     logging Demo.fresh
       [("ENOENT: no such file or directory, scandir '/ext/out/templates'undefined",
         error)]).
Proof. vm_compute; reflexivity. Qed.

(** ** Running the methods *)

Lemma logging_fs w entries : fs (logging w entries) = fs w.
Proof. reflexivity. Qed.

Lemma logging_logging w l1 l2 : logging (logging w l1) l2 = logging w (l1 ++ l2).
Proof. unfold logging; simpl. by rewrite <- app_assoc. Qed.

Lemma log_run msg level w :
  ContextManager.log msg level w = (Return (), logging w [(msg, level)]).
Proof. reflexivity. Qed.

Lemma require_run host p w : require host p w = (outcome (require host p) w, w).
Proof. unfold outcome, require. by destruct (fs w !! p) as [[?|]|]. Qed.

Lemma toString_throws_no_SyntaxError e e' :
  Js.toString e = Throw e' → Js.instanceofSyntaxError e' = false.
Proof. destruct e; simpl; intros H; inversion H; reflexivity. Qed.

(** [renderTemplateContent], branch by branch. *)
Lemma renderTemplateContent_run host t opts w :
  renderTemplateContent host t opts w =
    match outcome (require host (path t)) w with
    | Return templateRender =>
        match templateRender opts with
        | Return content =>
            (Return content,
             logging w [("Template Content: " +:+ newline +:+ content, info)])
        | Throw e =>
            match Js.toString e with
            | Return text =>
                (Throw (Js.newError (MSG_SYNTAX_PREFIX +:+ text)),
                 logging w [(MSG_SYNTAX_PREFIX +:+ text, warn);
                            (MSG_SYNTAX_PREFIX +:+ text, error)])
            | Throw _ =>
                (Throw (Js.newError MSG_RENDER), logging w [(MSG_RENDER, error)])
            end
        end
    | Throw e =>
        let _error := if Js.instanceofSyntaxError e then Js.message e else MSG_RENDER in
        (Throw (Js.newError _error), logging w [(_error, error)])
    end.
Proof.
  unfold renderTemplateContent, bind, try_catch, complete, throw, ret.
  rewrite require_run.
  destruct (outcome (require host (path t)) w) as [templateRender|e]; [|reflexivity].
  destruct (templateRender opts) as [content|e]; [reflexivity|].
  destruct (Js.toString e) as [text|e'] eqn:Htext; simpl.
  - unfold logging; simpl. by rewrite <- app_assoc.
  - by rewrite (toString_throws_no_SyntaxError _ _ Htext).
Qed.

Lemma renderTemplateContent_fs host t opts w :
  fs (worldAfter (renderTemplateContent host t opts) w) = fs w.
Proof.
  unfold worldAfter. rewrite renderTemplateContent_run.
  repeat case_match; reflexivity.
Qed.

(** [createNewFileBasedOnTemplate], guard by guard. *)
Lemma createNewFileBasedOnTemplate_run host t newFileName dir w :
  createNewFileBasedOnTemplate host t newFileName dir w =
    if Fs.existsSync (fs w) (templateFilePath host (name t)) then
      if Fs.existsSync (fs w) dir then
        match renderTemplateContent host t (templateOptions host newFileName dir) w with
        | (Return templateContent, w1) =>
            match Fs.writeFileSync (fs w1) (Path.join [dir; newFileName]) templateContent with
            | inr disk =>
                (Return (Path.join [dir; newFileName]), mkWorld disk (state w1) (logged w1))
            | inl e => (Throw (Fs.thrown e), w1)
            end
        | (Throw e, w1) => (Throw e, w1)
        end
      else (Throw (Js.newError MSG_NO_DIRECTORY), logging w [(MSG_NO_DIRECTORY, warn)])
    else (Throw (Js.newError MSG_INEXISTENT), logging w [(MSG_INEXISTENT, warn)]).
Proof.
  unfold createNewFileBasedOnTemplate, existsTemplate, bind, fs_read, fs_update, ret, throw.
  simpl.
  destruct (Fs.existsSync (fs w) (templateFilePath host (name t))); [|reflexivity].
  destruct (Fs.existsSync (fs w) dir); [|reflexivity].
  destruct (renderTemplateContent host t (templateOptions host newFileName dir) w)
    as [[templateContent|e] w1]; [|reflexivity].
  by destruct (Fs.writeFileSync (fs w1) (Path.join [dir; newFileName]) templateContent).
Qed.

Lemma prefix_refl s : String.prefix s s = true.
Proof. induction s as [|c s IH]; simpl; [done|]. by destruct (ascii_dec c c). Qed.

Lemma includes_refl s : Js.includes s s = true.
Proof. pose proof (prefix_refl s) as Hs. destruct s; simpl in *; [done|]. by rewrite Hs. Qed.

Lemma includes_app_r a s needle :
  Js.includes s needle = true → Js.includes (a +:+ s) needle = true.
Proof.
  intros Hs. induction a as [|c a IH]; simpl; [done|].
  rewrite IH. apply orb_true_r.
Qed.

(** [createTemplatesDirIfNotExists], case by case. *)
Lemma createTemplatesDirIfNotExists_run host w :
  createTemplatesDirIfNotExists host w =
    let created :=
      ("Templates Directory created on path: " +:+ templatesDirPath host +:+ ".", info) in
    if Fs.existsSync (fs w) (templatesDirPath host) then (Return (), logging w [created])
    else
      match Fs.mkdirSync (fs w) (templatesDirPath host) with
      | inr disk => (Return (), logging (mkWorld disk (state w) (logged w)) [created])
      | inl _ => (Throw (Js.newError MSG_MKDIR), logging w [(MSG_MKDIR, error)])
      end.
Proof.
  unfold createTemplatesDirIfNotExists, try_catch, bind, existsTemplatesDir, fs_read,
    fs_update, ret, throw.
  simpl. destruct (Fs.existsSync (fs w) (templatesDirPath host)); simpl; [reflexivity|].
  by destruct (Fs.mkdirSync (fs w) (templatesDirPath host)).
Qed.

(** [createFileTemplate], step by step. *)
Lemma createFileTemplate_run host templateName content w :
  createFileTemplate host templateName content w =
    if Fs.existsSync (fs w) (templateFilePath host templateName) then
      (Throw (Js.newError MSG_COLLISION), logging w [(MSG_COLLISION, warn)])
    else
      match createTemplatesDirIfNotExists host w with
      | (Return _, w1) =>
          match Fs.writeFileSync (fs w1) (templateFilePath host templateName) content with
          | inr disk =>
              (Return (templateFilePath host templateName),
               mkWorld disk (state w1) (logged w1))
          | inl e => (Throw (Fs.thrown e), w1)
          end
      | (Throw e, w1) => (Throw e, w1)
      end.
Proof.
  unfold createFileTemplate, existsTemplate, bind, fs_read, fs_update, ret, throw.
  simpl. destruct (Fs.existsSync (fs w) (templateFilePath host templateName)); [reflexivity|].
  destruct (createTemplatesDirIfNotExists host w) as [[[]|e] w1]; [|reflexivity].
  by destruct (Fs.writeFileSync (fs w1) (templateFilePath host templateName) content).
Qed.

Lemma existsSync_true (disk : gmap string Fs.Node) p :
  Fs.existsSync disk p = true ↔ is_Some (disk !! p).
Proof. unfold Fs.existsSync. apply bool_decide_eq_true. Qed.

Lemma existsSync_false (disk : gmap string Fs.Node) p :
  Fs.existsSync disk p = false ↔ disk !! p = None.
Proof.
  unfold Fs.existsSync. rewrite bool_decide_eq_false. symmetry. apply eq_None_not_Some.
Qed.

(** *** The catalog as a [Map] *)

Lemma JsMap_get_set {V} (m : JsMap.t V) key value key' :
  JsMap.get (JsMap.set m key value) key'
  = if String.eqb key key' then Some value else JsMap.get m key'.
Proof.
  induction m as [|[k v] m IH]; simpl; [done|].
  destruct (String.eqb k key) eqn:Hk; simpl.
  - apply String.eqb_eq in Hk as ->. by destruct (String.eqb key key').
  - rewrite IH. destruct (String.eqb k key') eqn:Hk'; [|done].
    apply String.eqb_eq in Hk' as ->. by rewrite String.eqb_sym, Hk.
Qed.

Lemma JsMap_keys_set_fresh {V} (m : JsMap.t V) key value :
  JsMap.get m key = None → JsMap.keys (JsMap.set m key value) = (JsMap.keys m ++ [key])%list.
Proof.
  unfold JsMap.keys. induction m as [|[k v] m IH]; simpl; [done|].
  destruct (String.eqb k key); [done|]. intros H. simpl. f_equal. by apply IH.
Qed.

Lemma JsMap_elem_of_keys {V} (m : JsMap.t V) key :
  key ∈ JsMap.keys m ↔ is_Some (JsMap.get m key).
Proof.
  unfold JsMap.keys. induction m as [|[k v] m IH]; simpl.
  - split; [by intros ?%elem_of_nil | by intros [? ?]].
  - rewrite elem_of_cons, IH. destruct (String.eqb k key) eqn:Hk.
    + apply String.eqb_eq in Hk as ->. split; eauto.
    + apply String.eqb_neq in Hk. split; [intros [->|?]; done | by right].
Qed.

Lemma addTemplate_unfold templatesDir templates templateFile :
  addTemplate templatesDir templates templateFile
  = match JsMap.get templates (stem templateFile) with
    | Some _ => templates
    | None => JsMap.set templates (stem templateFile) (entryOf templatesDir templateFile)
    end.
Proof.
  unfold addTemplate, JsMap.has. fold (stem templateFile).
  by destruct (JsMap.get templates (stem templateFile)).
Qed.

(** What the loop of [useTemplates] leaves under a key: what was there
    before, or else the entry of the first file with that stem. *)
Lemma fold_addTemplate_get templatesDir files templates key :
  JsMap.get (fold_left (addTemplate templatesDir) files templates) key
  = match JsMap.get templates key with
    | Some t => Some t
    | None => entryOf templatesDir <$> firstWithStem key files
    end.
Proof.
  revert templates. induction files as [|f files IH]; intros templates; simpl.
  - by destruct (JsMap.get templates key).
  - rewrite IH, addTemplate_unfold.
    destruct (String.eqb (stem f) key) eqn:Hf.
    + apply String.eqb_eq in Hf as <-.
      destruct (JsMap.get templates (stem f)) as [t|] eqn:Hget; [by rewrite Hget|].
      by rewrite JsMap_get_set, String.eqb_refl.
    + destruct (JsMap.get templates (stem f)) as [t|] eqn:Hget; [done|].
      by rewrite JsMap_get_set, Hf.
Qed.

Lemma fold_addTemplate_NoDup templatesDir files templates :
  NoDup (JsMap.keys templates) →
  NoDup (JsMap.keys (fold_left (addTemplate templatesDir) files templates)).
Proof.
  revert templates. induction files as [|f files IH]; intros templates Hnd; simpl; [done|].
  apply IH. rewrite addTemplate_unfold.
  destruct (JsMap.get templates (stem f)) as [t|] eqn:Hget; [done|].
  rewrite JsMap_keys_set_fresh by done.
  apply NoDup_app. split; [done|]. split; [|apply NoDup_singleton].
  intros k Hk ->%list_elem_of_singleton.
  apply JsMap_elem_of_keys in Hk as [? ?]. congruence.
Qed.

Lemma firstWithStem_is_Some key files :
  is_Some (firstWithStem key files) ↔ key ∈ stem <$> files.
Proof.
  unfold firstWithStem. rewrite list_elem_of_fmap. split.
  - intros [f Hf]. apply List.find_some in Hf as [Hin Heq].
    exists f. split; [by apply String.eqb_eq in Heq | by apply list_elem_of_In].
  - intros (f & -> & Hin). destruct (List.find _ files) as [g|] eqn:Hfind; [by eexists|].
    apply list_elem_of_In in Hin.
    pose proof (List.find_none _ _ Hfind f Hin) as Hno. simpl in Hno.
    by rewrite String.eqb_refl in Hno.
Qed.

(** ** The claims *)

(** C1, as the spec states it, fails: a module that is malformed makes
    [require] throw a [SyntaxError], and [renderTemplateContent] forwards the
    message of every [SyntaxError] it catches, so the error of this load
    failure does not carry the generic message. *)
Lemma renderTemplateContent_load_failure_not_generic :
  outcome (require Demo.host (path (Demo.template "broken"))) Demo.stocked
    = Throw (Js.newSyntaxError "Unexpected token '}'")
  ∧ outcome (renderTemplateContent Demo.host (Demo.template "broken")
               (templateOptions Demo.host "world.txt" "/work")) Demo.stocked
      = Throw (Js.newError "Unexpected token '}'")
  ∧ outcome (renderTemplateContent Demo.host (Demo.template "broken")
               (templateOptions Demo.host "world.txt" "/work")) Demo.stocked
      ≠ Throw (Js.newError "An error as ocurred rendering a template.").
Proof.
  split; [vm_compute; reflexivity|]. split; [vm_compute; reflexivity|].
  vm_compute. discriminate.
Qed.

(** C1, amended.  [renderTemplateContent] tells two kinds of failure apart.
    When the template's function throws a value [e] other than [null] and
    [undefined], the error has the message
    ["Your template has sintax errors: "] followed by [e.toString()], which
    for an error object ends with the message [e] was thrown with.  When
    loading the module at [template.path] fails, the error carries the
    generic message ["An error as ocurred rendering a template."], unless the
    value thrown while loading is a [SyntaxError], whose message is then
    forwarded as it is; a missing file is never one. *)
Theorem renderTemplateContent_two_tiers host t opts w :
  (∀ templateRender e,
     outcome (require host (path t)) w = Return templateRender →
     templateRender opts = Throw e →
     e ≠ Js.Null → e ≠ Js.Undefined →
     ∃ text,
       Js.toString e = Return text
       ∧ outcome (renderTemplateContent host t opts) w
           = Throw (Js.newError ("Your template has sintax errors: " +:+ text))
       ∧ ∀ cls msg, e = Js.ErrorObject cls msg → Js.includes text msg = true)
  ∧ (∀ e,
       outcome (require host (path t)) w = Throw e →
       outcome (renderTemplateContent host t opts) w
         = Throw (Js.newError
                    (if Js.instanceofSyntaxError e then Js.message e
                     else "An error as ocurred rendering a template.")))
  ∧ (fs w !! path t = None →
     outcome (renderTemplateContent host t opts) w
       = Throw (Js.newError "An error as ocurred rendering a template.")).
Proof.
  split; [|split].
  - intros templateRender e Hload Hcall Hnull Hundef.
    unfold outcome. rewrite renderTemplateContent_run, Hload, Hcall.
    destruct e as [cls msg|s| |]; try done; simpl; eexists; (split; [reflexivity|]).
    + split; [reflexivity|]. intros cls' msg' [= <- <-].
      destruct (String.eqb msg "") eqn:Hempty.
      * apply String.eqb_eq in Hempty as ->. by destruct cls.
      * do 2 apply includes_app_r. apply includes_refl.
    + split; [reflexivity|]. intros ? ? [=].
  - intros e Hload. unfold outcome. by rewrite renderTemplateContent_run, Hload.
  - intros Hmissing. unfold outcome. rewrite renderTemplateContent_run.
    unfold outcome, require. by rewrite Hmissing.
Qed.

Lemma renderTemplateContent_two_tiers_witness :
  (outcome (renderTemplateContent Demo.host (Demo.template "boom")
              (templateOptions Demo.host "world.txt" "/work")) Demo.stocked
     = Throw (Js.newError "Your template has sintax errors: Error: boom"))
  ∧ (outcome (renderTemplateContent Demo.host (Demo.template "ghost")
                (templateOptions Demo.host "world.txt" "/work")) Demo.stocked
       = Throw (Js.newError "An error as ocurred rendering a template.")).
Proof.
  split.
  - destruct (renderTemplateContent_two_tiers Demo.host (Demo.template "boom")
                (templateOptions Demo.host "world.txt" "/work") Demo.stocked)
      as (Hcall & _ & _).
    destruct (Hcall (λ _, Throw (Js.newError "boom")) (Js.newError "boom"))
      as (text & Htext & Hresult & _);
      [vm_compute; reflexivity | reflexivity | discriminate | discriminate |].
    rewrite Hresult. vm_compute in Htext. injection Htext as <-. reflexivity.
  - apply (renderTemplateContent_two_tiers Demo.host (Demo.template "ghost")
             (templateOptions Demo.host "world.txt" "/work") Demo.stocked).
    vm_compute; reflexivity.
Defined.

(** C2, as the spec states it, fails in its first half: a name that is not
    present does not guarantee success.  With no templates directory and no
    directory to create it in, [createFileTemplate] throws the
    directory-creation error. *)
Lemma createFileTemplate_fresh_name_can_fail :
  outcome (existsTemplate (Demo.hostAt "/missing/templates") "a") Demo.fresh = Return false
  ∧ outcome (createFileTemplate (Demo.hostAt "/missing/templates") "a" "content") Demo.fresh
      = Throw (Js.newError "A error ocurred when trying create a templates directory.")
  ∧ outcome (existsTemplate (Demo.hostAt "/missing/templates") "a")
      (worldAfter (createFileTemplate (Demo.hostAt "/missing/templates") "a" "content")
         Demo.fresh)
    = Return false.
Proof. repeat split; vm_compute; reflexivity. Qed.

(** C2, amended.  For a template name [n] that is not present,
    [createFileTemplate(n, c)] succeeds, returns the path of the new file and
    makes [existsTemplate(n)] true, provided the templates directory exists
    or [mkdirSync] creates it, and [writeFileSync] then writes the template
    file: the disk the call leaves is the one this write left.  A further
    call with the same name then fails and the file keeps the content [c].
    For a name that is present, [createFileTemplate] throws the
    name-collision error before anything is written, so the disk, and with it
    the content of the existing template, is unchanged. *)
Theorem createFileTemplate_fresh_or_collision host n c w :
  (∀ disk1 disk2,
     outcome (existsTemplate host n) w = Return false →
     (outcome (existsTemplatesDir host) w = Return true ∧ disk1 = fs w)
     ∨ (outcome (existsTemplatesDir host) w = Return false
        ∧ Fs.mkdirSync (fs w) (templatesDirPath host) = inr disk1) →
     Fs.writeFileSync disk1 (templateFilePath host n) c = inr disk2 →
     ∃ w',
       createFileTemplate host n c w = (Return (templateFilePath host n), w')
       ∧ fs w' = disk2
       ∧ outcome (existsTemplate host n) w' = Return true
       ∧ fs w' !! templateFilePath host n = Some (Fs.File c)
       ∧ ∀ c2,
           outcome (createFileTemplate host n c2) w'
             = Throw (Js.newError
                        "The template name already exists, please choose other name.")
           ∧ fs (worldAfter (createFileTemplate host n c2) w') !! templateFilePath host n
               = Some (Fs.File c))
  ∧ (outcome (existsTemplate host n) w = Return true →
     outcome (createFileTemplate host n c) w
       = Throw (Js.newError "The template name already exists, please choose other name.")
     ∧ fs (worldAfter (createFileTemplate host n c) w) = fs w).
Proof.
  assert (∀ w0 c0, Fs.existsSync (fs w0) (templateFilePath host n) = true →
            outcome (createFileTemplate host n c0) w0 = Throw (Js.newError MSG_COLLISION)
            ∧ fs (worldAfter (createFileTemplate host n c0) w0) = fs w0) as Htaken.
  { intros w0 c0 H. unfold outcome, worldAfter. rewrite createFileTemplate_run, H. done. }
  split.
  - intros disk1 disk2 Hfresh Hdir Hwrite.
    unfold outcome, existsTemplate, existsTemplatesDir, fs_read in Hfresh, Hdir.
    simpl in Hfresh, Hdir. injection Hfresh as Hfresh.
    set (p := templateFilePath host n) in *.
    assert (disk2 = <[p := Fs.File c]> disk1) as Hdisk2.
    { unfold Fs.writeFileSync in Hwrite. repeat case_match; congruence. }
    assert (∃ w1, createTemplatesDirIfNotExists host w = (Return (), w1) ∧ fs w1 = disk1)
      as (w1 & Hmk & Hw1).
    { rewrite createTemplatesDirIfNotExists_run. cbv zeta.
      destruct Hdir as [[[= Hdir] ->]|[[= Hdir] Hmkdir]]; rewrite Hdir.
      - eexists; split; reflexivity.
      - rewrite Hmkdir. eexists; split; reflexivity. }
    exists (mkWorld disk2 (state w1) (logged w1)). split.
    { rewrite createFileTemplate_run. fold p. rewrite Hfresh, Hmk, Hw1, Hwrite. done. }
    simpl. split; [done|].
    assert (disk2 !! p = Some (Fs.File c)) as Hfile.
    { rewrite Hdisk2. apply lookup_insert_eq. }
    assert (Fs.existsSync disk2 p = true) as Hnow.
    { apply existsSync_true. rewrite Hfile. by eexists. }
    split; [unfold outcome, existsTemplate, fs_read; simpl; fold p; by rewrite Hnow|].
    split; [exact Hfile|].
    intros c2.
    destruct (Htaken (mkWorld disk2 (state w1) (logged w1)) c2 Hnow) as [Hthrow Hsame].
    split; [exact Hthrow|]. rewrite Hsame. exact Hfile.
  - unfold outcome at 1, existsTemplate at 1, fs_read; simpl.
    intros [= Htrue]. by apply Htaken.
Qed.

Lemma createFileTemplate_fresh_or_collision_witness :
  (∃ w',
     createFileTemplate Demo.host "header" "module.exports = () => '';" Demo.fresh
       = (Return "/ext/out/templates/header.js", w')
     ∧ outcome (existsTemplate Demo.host "header") w' = Return true)
  ∧ outcome (createFileTemplate Demo.host "greet" "module.exports = () => '';") Demo.stocked
      = Throw (Js.newError "The template name already exists, please choose other name.")
  ∧ fs (worldAfter (createFileTemplate Demo.host "greet" "module.exports = () => '';")
          Demo.stocked) = fs Demo.stocked.
Proof.
  split.
  - destruct (createFileTemplate_fresh_or_collision Demo.host "header"
                "module.exports = () => '';" Demo.fresh) as [Hfresh _].
    destruct (Hfresh
                (<["/ext/out/templates" := Fs.Directory]> (fs Demo.fresh))
                (<["/ext/out/templates/header.js" := Fs.File "module.exports = () => '';"]>
                   (<["/ext/out/templates" := Fs.Directory]> (fs Demo.fresh))))
      as (w' & Hrun & _ & Hexists & _).
    + vm_compute; reflexivity.
    + right. split; vm_compute; reflexivity.
    + vm_compute; reflexivity.
    + exists w'. split; [exact Hrun | exact Hexists].
  - apply (createFileTemplate_fresh_or_collision Demo.host "greet"
             "module.exports = () => '';" Demo.stocked).
    vm_compute; reflexivity.
Defined.

(** C3. [useTemplates] keys every entry by the stem of its file name, and
    under a stem that several files share it keeps the file that the
    directory listing gave first; the later ones are dropped without a
    word.  On a directory that holds exactly [a.ext], [b.ext] and [a.ext2],
    in whatever order they are listed, the catalog has exactly the two keys
    [a] and [b], and [a] is the entry of the one of [a.ext], [a.ext2] that
    was listed first. *)
Theorem useTemplates_first_seen host w files :
  Fs.readdir (fs w) (templatesDirPath host) = inr files →
  ∃ catalog,
    useTemplates host w = (Return (Resolved catalog), w)
    ∧ (∀ key,
         JsMap.get catalog key
         = (λ f, mkTemplate key f (Path.join [templatesDirPath host; f]))
             <$> List.find (λ f, String.eqb (stem f) key) files)
    ∧ NoDup (JsMap.keys catalog)
    ∧ (∀ key, key ∈ JsMap.keys catalog ↔ key ∈ stem <$> files)
    ∧ (files ≡ₚ ["a.ext"; "b.ext"; "a.ext2"] →
       JsMap.size catalog = 2%nat
       ∧ JsMap.keys catalog ≡ₚ ["a"; "b"]
       ∧ ∃ first,
           List.find (λ f, bool_decide (f = "a.ext" ∨ f = "a.ext2")) files = Some first
           ∧ JsMap.get catalog "a"
             = Some (mkTemplate "a" first (Path.join [templatesDirPath host; first]))).
Proof.
  intros Hlisting.
  exists (fold_left (addTemplate (templatesDirPath host)) files JsMap.empty).
  split.
  { unfold useTemplates, bind, fs_read, onReaddir, ret. simpl. by rewrite Hlisting. }
  assert (∀ key,
            JsMap.get (fold_left (addTemplate (templatesDirPath host)) files JsMap.empty) key
            = (λ f, mkTemplate key f (Path.join [templatesDirPath host; f]))
                <$> List.find (λ f, String.eqb (stem f) key) files) as Hget.
  { intros key. rewrite fold_addTemplate_get. simpl. fold (firstWithStem key files).
    unfold firstWithStem.
    destruct (List.find _ files) as [f|] eqn:Hfind; simpl; [|done].
    apply List.find_some in Hfind as [_ Hstem]. apply String.eqb_eq in Hstem.
    unfold entryOf. by rewrite Hstem. }
  split; [exact Hget|]. split; [apply fold_addTemplate_NoDup, NoDup_nil_2|].
  split.
  { intros key. rewrite JsMap_elem_of_keys, fold_addTemplate_get. simpl.
    rewrite <- firstWithStem_is_Some. apply fmap_is_Some. }
  intros Hperm. generalize (templatesDirPath host). intros dir.
  symmetry in Hperm. apply permutations_Permutation in Hperm.
  let orders := eval vm_compute in (permutations ["a.ext"; "b.ext"; "a.ext2"]) in
  change (permutations ["a.ext"; "b.ext"; "a.ext2"]) with orders in Hperm.
  repeat (apply elem_of_cons in Hperm as [->|Hperm]);
    [..|by apply elem_of_nil in Hperm];
    (split; [vm_compute; reflexivity|]);
    (split; [vm_compute; (reflexivity || apply perm_swap)|]);
    eexists; (split; [vm_compute; reflexivity|]); vm_compute; reflexivity.
Qed.

Lemma useTemplates_first_seen_witness :
  Fs.readdir (fs Demo.duplicates) (templatesDirPath Demo.host)
    = inr ["a.ext"; "a.ext2"; "b.ext"]
  ∧ ∃ catalog,
      useTemplates Demo.host Demo.duplicates = (Return (Resolved catalog), Demo.duplicates)
      ∧ JsMap.size catalog = 2%nat
      ∧ JsMap.get catalog "a"
        = Some (mkTemplate "a" "a.ext" "/ext/out/templates/a.ext").
Proof.
  split; [vm_compute; reflexivity|].
  destruct (useTemplates_first_seen Demo.host Demo.duplicates ["a.ext"; "a.ext2"; "b.ext"])
    as (catalog & Hrun & _ & _ & _ & Hthree); [vm_compute; reflexivity|].
  destruct Hthree as (Hsize & _ & first & Hfirst & Ha).
  { apply perm_skip, perm_swap. }
  exists catalog. split; [exact Hrun|]. split; [exact Hsize|].
  rewrite Ha. vm_compute in Hfirst. injection Hfirst as <-. vm_compute; reflexivity.
Defined.

(** C4. When [template.name] does not resolve to an existing template file at
    call time, [createNewFileBasedOnTemplate] throws the inexistent-template
    error and the disk is left as it was. *)
Theorem createNewFileBasedOnTemplate_inexistent_template host t newFileName dir w :
  outcome (existsTemplate host (name t)) w = Return false →
  outcome (createNewFileBasedOnTemplate host t newFileName dir) w
    = Throw (Js.newError "Inexistent template.")
  ∧ fs (worldAfter (createNewFileBasedOnTemplate host t newFileName dir) w) = fs w.
Proof.
  unfold outcome, worldAfter, existsTemplate, fs_read; simpl. intros [= Hname].
  rewrite createNewFileBasedOnTemplate_run, Hname. by split.
Qed.

Lemma createNewFileBasedOnTemplate_inexistent_template_witness :
  outcome (existsTemplate Demo.host "ghost") Demo.stocked = Return false
  ∧ outcome (createNewFileBasedOnTemplate Demo.host (Demo.template "ghost")
               "world.txt" "/work") Demo.stocked
      = Throw (Js.newError "Inexistent template.")
  ∧ fs (worldAfter (createNewFileBasedOnTemplate Demo.host (Demo.template "ghost")
                      "world.txt" "/work") Demo.stocked) = fs Demo.stocked.
Proof.
  split; [vm_compute; reflexivity|].
  apply (createNewFileBasedOnTemplate_inexistent_template
           Demo.host (Demo.template "ghost") "world.txt" "/work" Demo.stocked).
  vm_compute; reflexivity.
Defined.

(** C5. With an existing template and a target directory that is absent,
    [createNewFileBasedOnTemplate] throws the directory-missing error and the
    disk is left as it was. *)
Theorem createNewFileBasedOnTemplate_directory_missing host t newFileName dir w :
  outcome (existsTemplate host (name t)) w = Return true →
  Fs.existsSync (fs w) dir = false →
  outcome (createNewFileBasedOnTemplate host t newFileName dir) w
    = Throw (Js.newError "The directory to create a file not exists.")
  ∧ fs (worldAfter (createNewFileBasedOnTemplate host t newFileName dir) w) = fs w.
Proof.
  unfold outcome, worldAfter, existsTemplate, fs_read; simpl. intros [= Hname] Hdir.
  rewrite createNewFileBasedOnTemplate_run, Hname, Hdir. by split.
Qed.

Lemma createNewFileBasedOnTemplate_directory_missing_witness :
  outcome (existsTemplate Demo.host "greet") Demo.stocked = Return true
  ∧ Fs.existsSync (fs Demo.stocked) "/nowhere" = false
  ∧ outcome (createNewFileBasedOnTemplate Demo.host (Demo.template "greet")
               "world.txt" "/nowhere") Demo.stocked
      = Throw (Js.newError "The directory to create a file not exists.")
  ∧ fs (worldAfter (createNewFileBasedOnTemplate Demo.host (Demo.template "greet")
                      "world.txt" "/nowhere") Demo.stocked) = fs Demo.stocked.
Proof.
  split; [vm_compute; reflexivity|]. split; [vm_compute; reflexivity|].
  apply (createNewFileBasedOnTemplate_directory_missing
           Demo.host (Demo.template "greet") "world.txt" "/nowhere" Demo.stocked);
    vm_compute; reflexivity.
Defined.

(** C6. Whenever [createNewFileBasedOnTemplate] succeeds, the string that the
    template's render function returned is what gets written, as it is, at
    [join(targetDir, newFileName)]; the write replaces whatever the disk held
    at that path, and that path is the value returned. *)
Theorem createNewFileBasedOnTemplate_writes_rendered host t newFileName dir w p w' :
  createNewFileBasedOnTemplate host t newFileName dir w = (Return p, w') →
  ∃ templateRender content,
    outcome (require host (path t)) w = Return templateRender
    ∧ templateRender (templateOptions host newFileName dir) = Return content
    ∧ p = Path.join [dir; newFileName]
    ∧ fs w' = <[Path.join [dir; newFileName] := Fs.File content]> (fs w)
    ∧ fs w' !! p = Some (Fs.File content).
Proof.
  rewrite createNewFileBasedOnTemplate_run.
  destruct (Fs.existsSync (fs w) (templateFilePath host (name t))); [|done].
  destruct (Fs.existsSync (fs w) dir); [|done].
  rewrite renderTemplateContent_run.
  destruct (outcome (require host (path t)) w) as [templateRender|e]; [|done].
  destruct (templateRender (templateOptions host newFileName dir)) as [content|e] eqn:Hcall;
    [|by destruct (Js.toString e)].
  rewrite logging_fs.
  destruct (Fs.writeFileSync (fs w) (Path.join [dir; newFileName]) content)
    as [err|disk] eqn:Hwrite; [done|].
  intros [= <- <-]. exists templateRender, content. simpl.
  assert (disk = <[Path.join [dir; newFileName] := Fs.File content]> (fs w)) as ->.
  { unfold Fs.writeFileSync in Hwrite. repeat case_match; congruence. }
  rewrite lookup_insert_eq. done.
Qed.

Lemma createNewFileBasedOnTemplate_writes_rendered_witness :
  fs Demo.stocked !! "/work/notes.txt" = Some (Fs.File "old notes")
  ∧ ∃ w', createNewFileBasedOnTemplate Demo.host (Demo.template "greet")
            "notes.txt" "/work" Demo.stocked = (Return "/work/notes.txt", w')
          ∧ fs w' !! "/work/notes.txt" = Some (Fs.File "Hello, notes").
Proof.
  split; [vm_compute; reflexivity|].
  exists (worldAfter (createNewFileBasedOnTemplate Demo.host (Demo.template "greet")
                        "notes.txt" "/work") Demo.stocked).
  split; [vm_compute; reflexivity|].
  destruct (createNewFileBasedOnTemplate_writes_rendered Demo.host
              (Demo.template "greet") "notes.txt" "/work" Demo.stocked
              "/work/notes.txt"
              (worldAfter (createNewFileBasedOnTemplate Demo.host (Demo.template "greet")
                             "notes.txt" "/work") Demo.stocked))
    as (templateRender & content & Hload & Hcall & _ & _ & Hfile);
    [vm_compute; reflexivity|].
  rewrite Hfile. vm_compute in Hload. injection Hload as <-. simpl in Hcall.
  vm_compute in Hcall. injection Hcall as <-. reflexivity.
Defined.

(** C7, as the spec states it, fails: with a template named [default] on disk
    whose file is empty, [getTemplateRenderEstructure] does not return the
    content of that template, nor any string: it throws. *)
Lemma getTemplateRenderEstructure_empty_default_throws :
  outcome (existsTemplate Demo.host "default") Demo.emptyDefault = Return true
  ∧ fs Demo.emptyDefault !! templateFilePath Demo.host "default" = Some (Fs.File "")
  ∧ outcome (getTemplateRenderEstructure Demo.host) Demo.emptyDefault
      = Throw (Js.newError "Sorry, Cannot retrieve a template renderer default.").
Proof. repeat split; vm_compute; reflexivity. Qed.

(** C7, amended.  [getTemplateRenderEstructure] returns the content of the
    template file named [default] whenever one is present at call time and is
    not empty; with no such template it returns the text saved under
    ["defaultTemplate"] in the context state, when that text is not empty.
    When the text it picked is empty it throws
    ["Sorry, Cannot retrieve a template renderer default."] and returns
    nothing. *)
Theorem getTemplateRenderEstructure_default_or_saved host w :
  (∀ text,
     fs w !! templateFilePath host "default" = Some (Fs.File text) →
     text ≠ "" →
     getTemplateRenderEstructure host w = (Return text, w))
  ∧ (∀ text,
       fs w !! templateFilePath host "default" = None →
       state w !! "defaultTemplate" = Some text →
       text ≠ "" →
       getTemplateRenderEstructure host w = (Return text, w))
  ∧ (fs w !! templateFilePath host "default" = Some (Fs.File "")
     ∨ (fs w !! templateFilePath host "default" = None
        ∧ state w !! "defaultTemplate" = Some "") →
     outcome (getTemplateRenderEstructure host) w
       = Throw (Js.newError "Sorry, Cannot retrieve a template renderer default.")
     ∧ fs (worldAfter (getTemplateRenderEstructure host) w) = fs w).
Proof.
  unfold outcome, worldAfter, getTemplateRenderEstructure, existsTemplate, bind, fs_read,
    fs_try, ret, throw, ContextManager.useState, Fs.existsSync, Fs.readFileSync.
  simpl. split; [|split].
  - intros text Hfile Hne. rewrite Hfile. rewrite bool_decide_eq_true_2 by eauto.
    simpl. rewrite Hfile. by destruct text.
  - intros text Hnone Hsaved Hne. rewrite Hnone.
    rewrite bool_decide_eq_false_2 by (intros [? [=]]).
    simpl. rewrite Hsaved. by destruct text.
  - intros [Hfile|[Hnone Hsaved]].
    + rewrite Hfile. rewrite bool_decide_eq_true_2 by eauto. simpl. by rewrite Hfile.
    + rewrite Hnone. rewrite bool_decide_eq_false_2 by (intros [? [=]]).
      simpl. by rewrite Hsaved.
Qed.

Lemma getTemplateRenderEstructure_default_or_saved_witness :
  getTemplateRenderEstructure Demo.host
    (mkWorld (<["/ext/out/templates/default.js" := Fs.File "module.exports = () => '';"]>
                (fs Demo.emptyDefault)) ∅ [])
  = (Return "module.exports = () => '';",
     mkWorld (<["/ext/out/templates/default.js" := Fs.File "module.exports = () => '';"]>
                (fs Demo.emptyDefault)) ∅ [])
  ∧ getTemplateRenderEstructure Demo.host
      (mkWorld (fs Demo.fresh) {[ "defaultTemplate" := "saved skeleton" ]} [])
    = (Return "saved skeleton",
       mkWorld (fs Demo.fresh) {[ "defaultTemplate" := "saved skeleton" ]} [])
  ∧ outcome (getTemplateRenderEstructure Demo.host) Demo.emptyDefault
    = Throw (Js.newError "Sorry, Cannot retrieve a template renderer default.").
Proof.
  split; [|split].
  - apply (proj1 (getTemplateRenderEstructure_default_or_saved Demo.host _));
      [vm_compute; reflexivity | discriminate].
  - apply (proj1 (proj2 (getTemplateRenderEstructure_default_or_saved Demo.host _)));
      [vm_compute; reflexivity | vm_compute; reflexivity | discriminate].
  - apply (proj2 (proj2 (getTemplateRenderEstructure_default_or_saved
                           Demo.host Demo.emptyDefault))).
    left. vm_compute; reflexivity.
Defined.

(** C8, as the spec states it, fails in its second half: when [mkdirSync]
    fails, the error that [createTemplatesDirIfNotExists] throws has a fixed
    message, in which neither the message nor the code of the system error
    occurs. *)
Lemma createTemplatesDirIfNotExists_hides_system_error :
  ∃ e,
    Fs.mkdirSync (fs Demo.fresh) (templatesDirPath (Demo.hostAt "/missing/templates"))
      = inl e
    ∧ outcome (createTemplatesDirIfNotExists (Demo.hostAt "/missing/templates")) Demo.fresh
        = Throw (Js.newError "A error ocurred when trying create a templates directory.")
    ∧ Js.includes "A error ocurred when trying create a templates directory."
        (Fs.errno_message e) = false
    ∧ Js.includes "A error ocurred when trying create a templates directory."
        (Fs.code e) = false.
Proof.
  eexists. split; [vm_compute; reflexivity|].
  split; [vm_compute; reflexivity|]. split; vm_compute; reflexivity.
Qed.

(** C8, amended.  [createTemplatesDirIfNotExists] is idempotent: when the
    directory is there the call succeeds and leaves the disk as it is, so a
    second call after a successful one succeeds without touching the disk.
    When the directory is absent and [mkdirSync] fails, whatever the system
    error, the call throws an error with the fixed message
    ["A error ocurred when trying create a templates directory."] and the disk
    is left as it was. *)
Theorem createTemplatesDirIfNotExists_idempotent_fixed_error host w :
  (Fs.existsSync (fs w) (templatesDirPath host) = true →
   outcome (createTemplatesDirIfNotExists host) w = Return ()
   ∧ fs (worldAfter (createTemplatesDirIfNotExists host) w) = fs w)
  ∧ (∀ w1,
       createTemplatesDirIfNotExists host w = (Return (), w1) →
       Fs.existsSync (fs w1) (templatesDirPath host) = true
       ∧ outcome (createTemplatesDirIfNotExists host) w1 = Return ()
       ∧ fs (worldAfter (createTemplatesDirIfNotExists host) w1) = fs w1)
  ∧ (∀ e,
       Fs.existsSync (fs w) (templatesDirPath host) = false →
       Fs.mkdirSync (fs w) (templatesDirPath host) = inl e →
       outcome (createTemplatesDirIfNotExists host) w
         = Throw (Js.newError "A error ocurred when trying create a templates directory.")
       ∧ fs (worldAfter (createTemplatesDirIfNotExists host) w) = fs w).
Proof.
  assert (∀ w0, Fs.existsSync (fs w0) (templatesDirPath host) = true →
            outcome (createTemplatesDirIfNotExists host) w0 = Return ()
            ∧ fs (worldAfter (createTemplatesDirIfNotExists host) w0) = fs w0) as Hthere.
  { intros w0 H. unfold outcome, worldAfter.
    rewrite createTemplatesDirIfNotExists_run; simpl. by rewrite H. }
  split; [apply Hthere|]. split.
  - intros w1 Hrun.
    assert (Fs.existsSync (fs w1) (templatesDirPath host) = true) as Hnow.
    { rewrite createTemplatesDirIfNotExists_run in Hrun; simpl in Hrun.
      destruct (Fs.existsSync (fs w) (templatesDirPath host)) eqn:Hdir.
      - injection Hrun as <-. exact Hdir.
      - unfold Fs.mkdirSync in Hrun.
        destruct (fs w !! templatesDirPath host); [done|].
        destruct (Fs.parentOf (fs w) (templatesDirPath host)) as [[|]|]; try done.
        injection Hrun as <-. simpl. apply existsSync_true.
        rewrite lookup_insert_eq. by eexists. }
    split; [exact Hnow|]. by apply Hthere.
  - intros e Hdir Hmkdir. unfold outcome, worldAfter.
    rewrite createTemplatesDirIfNotExists_run; simpl. by rewrite Hdir, Hmkdir.
Qed.

Lemma createTemplatesDirIfNotExists_idempotent_fixed_error_witness :
  (∃ w1, createTemplatesDirIfNotExists Demo.host Demo.fresh = (Return (), w1)
         ∧ fs w1 !! "/ext/out/templates" = Some Fs.Directory
         ∧ outcome (createTemplatesDirIfNotExists Demo.host) w1 = Return ()
         ∧ fs (worldAfter (createTemplatesDirIfNotExists Demo.host) w1) = fs w1)
  ∧ outcome (createTemplatesDirIfNotExists (Demo.hostAt "/work/notes.txt/templates"))
      Demo.fresh
    = Throw (Js.newError "A error ocurred when trying create a templates directory.").
Proof.
  split.
  - exists (worldAfter (createTemplatesDirIfNotExists Demo.host) Demo.fresh).
    split; [vm_compute; reflexivity|]. split; [vm_compute; reflexivity|].
    apply (createTemplatesDirIfNotExists_idempotent_fixed_error Demo.host Demo.fresh).
    vm_compute; reflexivity.
  - apply (createTemplatesDirIfNotExists_idempotent_fixed_error
             (Demo.hostAt "/work/notes.txt/templates") Demo.fresh)
      with (e := Fs.ENOTDIR "mkdir" "/work/notes.txt/templates");
      vm_compute; reflexivity.
Defined.

(** C9. When the renderer throws, whether the module failed to load or the
    template's function threw, [createNewFileBasedOnTemplate] throws the same
    error and nothing is written: the disk, and so the destination
    [join(targetDir, newFileName)], is as it was. *)
Theorem createNewFileBasedOnTemplate_render_error_no_write host t newFileName dir w e :
  outcome (existsTemplate host (name t)) w = Return true →
  Fs.existsSync (fs w) dir = true →
  outcome (renderTemplateContent host t (templateOptions host newFileName dir)) w
    = Throw e →
  outcome (createNewFileBasedOnTemplate host t newFileName dir) w = Throw e
  ∧ fs (worldAfter (createNewFileBasedOnTemplate host t newFileName dir) w) = fs w
  ∧ fs (worldAfter (createNewFileBasedOnTemplate host t newFileName dir) w)
      !! Path.join [dir; newFileName]
    = fs w !! Path.join [dir; newFileName].
Proof.
  unfold outcome at 1, existsTemplate, fs_read; simpl. intros [= Hname] Hdir Hrender.
  pose proof (renderTemplateContent_fs host t (templateOptions host newFileName dir) w)
    as Hfs.
  unfold outcome, worldAfter in *.
  rewrite createNewFileBasedOnTemplate_run, Hname, Hdir.
  destruct (renderTemplateContent host t (templateOptions host newFileName dir) w)
    as [c w1]; simpl in *; subst c.
  simpl. rewrite Hfs. done.
Qed.

Lemma createNewFileBasedOnTemplate_render_error_no_write_witness :
  outcome (existsTemplate Demo.host "boom") Demo.stocked = Return true
  ∧ Fs.existsSync (fs Demo.stocked) "/work" = true
  ∧ outcome (renderTemplateContent Demo.host (Demo.template "boom")
               (templateOptions Demo.host "notes.txt" "/work")) Demo.stocked
      = Throw (Js.newError "Your template has sintax errors: Error: boom")
  ∧ fs (worldAfter (createNewFileBasedOnTemplate Demo.host (Demo.template "boom")
                      "notes.txt" "/work") Demo.stocked) !! "/work/notes.txt"
      = Some (Fs.File "old notes").
Proof.
  split; [vm_compute; reflexivity|]. split; [vm_compute; reflexivity|].
  split; [vm_compute; reflexivity|].
  destruct (createNewFileBasedOnTemplate_render_error_no_write
              Demo.host (Demo.template "boom") "notes.txt" "/work" Demo.stocked
              (Js.newError "Your template has sintax errors: Error: boom"))
    as (_ & Hdisk & _); [vm_compute; reflexivity ..|].
  rewrite Hdisk. vm_compute; reflexivity.
Defined.

(** C10. The re-validation of [createNewFileBasedOnTemplate] looks only for
    [template.name] followed by [".js"] in the templates directory; the
    [filename] and [path] of the template play no part.  So for an entry of
    the catalog whose file has another extension, with no file of the same
    name and extension [".js"] next to it, the call throws the
    inexistent-template error although the file at [template.path] exists. *)
Theorem createNewFileBasedOnTemplate_checks_js_name_only
    host w catalog key t newFileName dir :
  outcome (useTemplates host) w = Return (Resolved catalog) →
  JsMap.get catalog key = Some t →
  Path.extname (filename t) ≠ TEMPLATE_EXTENSION →
  Fs.existsSync (fs w) (path t) = true →
  Fs.existsSync (fs w) (Path.join [templatesDirPath host; name t +:+ ".js"]) = false →
  outcome (createNewFileBasedOnTemplate host t newFileName dir) w
    = Throw (Js.newError "Inexistent template.")
  ∧ fs (worldAfter (createNewFileBasedOnTemplate host t newFileName dir) w) = fs w.
Proof.
  intros _ _ _ _ Hjs. unfold outcome, worldAfter.
  rewrite createNewFileBasedOnTemplate_run.
  unfold templateFilePath, TEMPLATE_EXTENSION. rewrite Hjs. by split.
Qed.

Lemma createNewFileBasedOnTemplate_checks_js_name_only_witness :
  ∃ catalog t,
    outcome (useTemplates Demo.host) Demo.stocked = Return (Resolved catalog)
    ∧ JsMap.get catalog "readme" = Some t
    ∧ filename t = "readme.txt"
    ∧ Fs.existsSync (fs Demo.stocked) (path t) = true
    ∧ outcome (createNewFileBasedOnTemplate Demo.host t "world.txt" "/work") Demo.stocked
        = Throw (Js.newError "Inexistent template.").
Proof.
  eexists _, (mkTemplate "readme" "readme.txt" "/ext/out/templates/readme.txt").
  split; [vm_compute; reflexivity|]. split; [vm_compute; reflexivity|].
  split; [reflexivity|]. split; [vm_compute; reflexivity|].
  eapply (createNewFileBasedOnTemplate_checks_js_name_only Demo.host Demo.stocked _
            "readme" (mkTemplate "readme" "readme.txt" "/ext/out/templates/readme.txt")
            "world.txt" "/work").
  - vm_compute; reflexivity.
  - vm_compute; reflexivity.
  - vm_compute. discriminate.
  - vm_compute; reflexivity.
  - vm_compute; reflexivity.
Defined.

(** ** Further properties of the class *)

(** *** Opening the templates directory *)

(** [openTemplatesDirectoryInFileExplorer], check by check. *)
Lemma openTemplatesDirectoryInFileExplorer_run host platform exec w :
  openTemplatesDirectoryInFileExplorer host platform exec w =
    if Fs.existsSync (fs w) (templatesDirPath host) then
      match JsMap.get platformsCommands platform with
      | Some command =>
          match exec (command +:+ " " +:+ templatesDirPath host) with
          | Return _ => (Return (), w)
          | Throw _ =>
              (Throw (Js.newError "Cannot open Templates Directory. (Internal Error)"),
               logging w [("Cannot open Templates Directory. (Internal Error)", error)])
          end
      | None =>
          (Throw (Js.newError "Cannot open Templates Directory. (Unknown Platform)"),
           logging w [("Cannot open Templates Directory. (Unknown Platform)", warn)])
      end
    else
      (Throw (Js.newError "Templates directory not found."),
       logging w [("Templates directory not found.", warn)]).
Proof.
  assert (bool_decide (platform ∈ platformsCommands.*1)
          = match JsMap.get platformsCommands platform with
            | Some _ => true
            | None => false
            end) as Hknown.
  { pose proof (JsMap_elem_of_keys platformsCommands platform) as Hkeys.
    unfold JsMap.keys in Hkeys.
    destruct (JsMap.get platformsCommands platform) as [c|].
    - apply bool_decide_eq_true_2, Hkeys. by eexists.
    - apply bool_decide_eq_false_2. rewrite Hkeys. by intros [? ?]. }
  unfold openTemplatesDirectoryInFileExplorer, existsTemplatesDir, bind, fs_read.
  cbv beta iota.
  destruct (Fs.existsSync (fs w) (templatesDirPath host)); [|reflexivity].
  rewrite Hknown. unfold try_catch, complete, throw, ret, negb. cbv beta iota.
  destruct (JsMap.get platformsCommands platform) as [command|]; [|reflexivity].
  by destruct (exec (command +:+ " " +:+ templatesDirPath host)) as [[]|].
Qed.





(** X3. With the templates directory in place and one of the three platforms,
    the method hands [exec] one command line: the platform's program, a
    space, and the templates directory as it is, without quoting.  It returns
    when that call returns and throws
    ["Cannot open Templates Directory. (Internal Error)"] when that call
    throws, whatever was thrown; the disk is not touched either way. *)
Theorem openTemplatesDirectoryInFileExplorer_command_line host platform command exec w :
  outcome (existsTemplatesDir host) w = Return true →
  (platform = "win32" ∧ command = "explorer")
  ∨ (platform = "linux" ∧ command = "xdg-open")
  ∨ (platform = "darwin" ∧ command = "open") →
  outcome (openTemplatesDirectoryInFileExplorer host platform exec) w
    = match exec (command +:+ " " +:+ templatesDirPath host) with
      | Return _ => Return ()
      | Throw _ => Throw (Js.newError "Cannot open Templates Directory. (Internal Error)")
      end
  ∧ fs (worldAfter (openTemplatesDirectoryInFileExplorer host platform exec) w) = fs w.
Proof.
  unfold outcome, worldAfter, existsTemplatesDir, fs_read; simpl.
  intros [= Hdir] Hplatform.
  rewrite openTemplatesDirectoryInFileExplorer_run, Hdir.
  destruct Hplatform as [[-> ->]|[[-> ->]|[-> ->]]];
    [ change (JsMap.get platformsCommands "win32") with (Some "explorer")
    | change (JsMap.get platformsCommands "linux") with (Some "xdg-open")
    | change (JsMap.get platformsCommands "darwin") with (Some "open") ];
    cbv beta iota; by destruct (exec _) as [[]|].
Qed.

Lemma openTemplatesDirectoryInFileExplorer_command_line_witness :
  outcome (openTemplatesDirectoryInFileExplorer Demo.host "linux"
             (λ line, if String.eqb line "xdg-open /ext/out/templates"
                      then Return () else Throw Js.Null)) Demo.stocked
    = Return ()
  ∧ outcome (openTemplatesDirectoryInFileExplorer Demo.host "darwin" Demo.refuses)
      Demo.stocked
    = Throw (Js.newError "Cannot open Templates Directory. (Internal Error)").
Proof.
  split.
  - apply (openTemplatesDirectoryInFileExplorer_command_line Demo.host "linux" "xdg-open"
             (λ line, if String.eqb line "xdg-open /ext/out/templates"
                      then Return () else Throw Js.Null) Demo.stocked);
      [vm_compute; reflexivity | right; left; split; reflexivity].
  - apply (openTemplatesDirectoryInFileExplorer_command_line Demo.host "darwin" "open"
             Demo.refuses Demo.stocked);
      [vm_compute; reflexivity | right; right; split; reflexivity].
Defined.

(** *** The template store *)

(** What [createTemplatesDirIfNotExists] can do to the world: only the log
    grows, and the disk either stays or gains the templates directory. *)
Lemma createTemplatesDirIfNotExists_effects host w :
  state (worldAfter (createTemplatesDirIfNotExists host) w) = state w
  ∧ (fs (worldAfter (createTemplatesDirIfNotExists host) w) = fs w
     ∨ (fs w !! templatesDirPath host = None
        ∧ outcome (createTemplatesDirIfNotExists host) w = Return ()
        ∧ fs (worldAfter (createTemplatesDirIfNotExists host) w)
          = <[templatesDirPath host := Fs.Directory]> (fs w))).
Proof.
  unfold outcome, worldAfter. rewrite createTemplatesDirIfNotExists_run. cbv zeta.
  destruct (Fs.existsSync (fs w) (templatesDirPath host)) eqn:Hdir; [by split; [|left]|].
  apply existsSync_false in Hdir. unfold Fs.mkdirSync, Fs.parentOf. rewrite Hdir.
  destruct (fs w !! Path.dirname (templatesDirPath host)) as [[|]|];
    simpl; (split; [done|]); auto.
Qed.

(** [getTemplateRenderEstructure], source by source. *)
Lemma getTemplateRenderEstructure_run host w :
  getTemplateRenderEstructure host w =
    let checked (text : string) :=
      if Nat.eqb (String.length text) 0
      then (Throw (Js.newError MSG_NO_DEFAULT), logging w [(MSG_NO_DEFAULT, warn)])
      else (Return text, w) in
    match fs w !! templateFilePath host "default" with
    | Some (Fs.File text) => checked text
    | Some Fs.Directory =>
        (Throw (Fs.thrown (Fs.EISDIR "read" (templateFilePath host "default"))), w)
    | None =>
        match state w !! "defaultTemplate" with
        | Some text => checked text
        | None =>
            (Throw (Js.ErrorObject Js.ETypeError
                      "Cannot read properties of undefined (reading 'length')"), w)
        end
    end.
Proof.
  unfold getTemplateRenderEstructure, existsTemplate, bind, fs_read, fs_try, ret, throw,
    ContextManager.useState, Fs.existsSync, Fs.readFileSync.
  cbv beta iota zeta.
  destruct (fs w !! templateFilePath host "default") as [[text|]|] eqn:Hfile.
  - rewrite bool_decide_eq_true_2 by eauto. cbv beta iota. rewrite Hfile.
    by destruct (Nat.eqb (String.length text) 0).
  - rewrite bool_decide_eq_true_2 by eauto. cbv beta iota. by rewrite Hfile.
  - rewrite bool_decide_eq_false_2 by (intros [? [=]]). cbv beta iota.
    destruct (state w !! "defaultTemplate") as [text|]; [|done].
    by destruct (Nat.eqb (String.length text) 0).
Qed.

(** The skeleton is never empty, and fetching it changes neither the disk nor
    the saved state. *)
Lemma getTemplateRenderEstructure_effects host w :
  fs (worldAfter (getTemplateRenderEstructure host) w) = fs w
  ∧ state (worldAfter (getTemplateRenderEstructure host) w) = state w
  ∧ ∀ text,
      outcome (getTemplateRenderEstructure host) w = Return text →
      text ≠ "" ∧ worldAfter (getTemplateRenderEstructure host) w = w.
Proof.
  unfold outcome, worldAfter. rewrite getTemplateRenderEstructure_run. cbv zeta.
  assert (∀ text : string, Nat.eqb (String.length text) 0 = false → text ≠ "") as Hne.
  { by intros [|? ?]. }
  destruct (fs w !! templateFilePath host "default") as [[text|]|];
    [| by repeat split | destruct (state w !! "defaultTemplate") as [text|];
                           [|by repeat split]];
    destruct (Nat.eqb (String.length text) 0) eqn:Hlen; simpl;
    (split; [done|]); (split; [done|]); intros text' [=]; subst; auto.
Qed.

(** X5. When [createFileTemplate] succeeds, the path it returns is
    [templateFilePath] of the name, the file there holds the content as it was
    given, and the only other path the call may have touched is the templates
    directory itself: every other file, and the saved state, are as before. *)
Theorem createFileTemplate_writes_one_file host n c w p w' :
  createFileTemplate host n c w = (Return p, w') →
  p = templateFilePath host n
  ∧ fs w' !! p = Some (Fs.File c)
  ∧ (∀ q, q ≠ p → q ≠ templatesDirPath host → fs w' !! q = fs w !! q)
  ∧ state w' = state w.
Proof.
  rewrite createFileTemplate_run.
  destruct (Fs.existsSync (fs w) (templateFilePath host n)); [done|].
  pose proof (createTemplatesDirIfNotExists_effects host w) as [Hstate Hdisk].
  unfold outcome, worldAfter in *.
  destruct (createTemplatesDirIfNotExists host w) as [[[]|e] w1]; [|done].
  simpl in *. unfold Fs.writeFileSync.
  destruct (fs w1 !! templateFilePath host n) as [[?|]|];
    destruct (Fs.parentOf (fs w1) (templateFilePath host n)) as [[?|]|];
    try done; intros [= <- <-]; simpl;
    (split; [done|]); (split; [apply lookup_insert_eq|]); (split; [|done]);
    intros q Hq Hdir; rewrite lookup_insert_ne by done;
    destruct Hdisk as [->|(_ & _ & ->)]; try done; by rewrite lookup_insert_ne.
Qed.

Lemma createFileTemplate_writes_one_file_witness :
  fs (worldAfter (createFileTemplate Demo.host "header" "// header") Demo.stocked)
    !! "/ext/out/templates/header.js" = Some (Fs.File "// header")
  ∧ fs (worldAfter (createFileTemplate Demo.host "header" "// header") Demo.stocked)
      !! "/ext/out/templates/greet.js" = Some (Fs.File Demo.greetSource).
Proof.
  destruct (createFileTemplate_writes_one_file Demo.host "header" "// header" Demo.stocked
              "/ext/out/templates/header.js"
              (worldAfter (createFileTemplate Demo.host "header" "// header") Demo.stocked))
    as (_ & Hfile & Hothers & _); [vm_compute; reflexivity|].
  split; [exact Hfile|].
  rewrite Hothers; [vm_compute; reflexivity | discriminate | vm_compute; discriminate].
Defined.



Lemma createNewFileTemplate_run host n w :
  createNewFileTemplate host n w =
    match getTemplateRenderEstructure host w with
    | (Return content, w1) => createFileTemplate host n content w1
    | (Throw e, w1) => (Throw e, w1)
    end.
Proof.
  unfold createNewFileTemplate, bind.
  by destruct (getTemplateRenderEstructure host w) as [[content|e] w1].
Qed.

(** X7. A template made by [createNewFileTemplate] is never empty: when the
    call succeeds, the new file holds the skeleton that
    [getTemplateRenderEstructure] gives in the same world, and that text is
    not the empty string. *)
Theorem createNewFileTemplate_writes_skeleton host n w p w' :
  createNewFileTemplate host n w = (Return p, w') →
  ∃ text,
    outcome (getTemplateRenderEstructure host) w = Return text
    ∧ text ≠ ""
    ∧ p = templateFilePath host n
    ∧ fs w' !! p = Some (Fs.File text).
Proof.
  rewrite createNewFileTemplate_run.
  pose proof (getTemplateRenderEstructure_effects host w) as (_ & _ & Htext).
  unfold outcome, worldAfter in *.
  destruct (getTemplateRenderEstructure host w) as [[text|e] w1]; [|done].
  destruct (Htext text eq_refl) as [Hne Hw]. simpl in Hw. subst w1.
  rewrite createFileTemplate_run.
  destruct (Fs.existsSync (fs w) (templateFilePath host n)); [done|].
  destruct (createTemplatesDirIfNotExists host w) as [[[]|e] w1]; [|done].
  destruct (Fs.writeFileSync (fs w1) (templateFilePath host n) text) as [err|disk] eqn:Hw;
    [done|].
  intros [= <- <-]. exists text. simpl. repeat split; try done.
  unfold Fs.writeFileSync in Hw. repeat case_match; try done;
    injection Hw as <-; apply lookup_insert_eq.
Qed.

Lemma createNewFileTemplate_writes_skeleton_witness :
  ∃ text,
    outcome (getTemplateRenderEstructure Demo.host) Demo.withDefault = Return text
    ∧ text ≠ ""
    ∧ fs (worldAfter (createNewFileTemplate Demo.host "header") Demo.withDefault)
        !! "/ext/out/templates/header.js" = Some (Fs.File text).
Proof.
  destruct (createNewFileTemplate_writes_skeleton Demo.host "header" Demo.withDefault
              "/ext/out/templates/header.js"
              (worldAfter (createNewFileTemplate Demo.host "header") Demo.withDefault))
    as (text & Hskeleton & Hne & _ & Hfile); [vm_compute; reflexivity|].
  exists text. split; [exact Hskeleton|]. split; [exact Hne | exact Hfile].
Defined.

(** X8. Seeding from the [default] template: when [createNewFileTemplate]
    succeeds in a world where the file of the [default] template holds a
    text, the new template is a copy of that text, the [default] template is
    still what it was, and [existsTemplate] finds the new name. *)
Theorem createNewFileTemplate_copies_default host n text w p w' :
  createNewFileTemplate host n w = (Return p, w') →
  fs w !! templateFilePath host "default" = Some (Fs.File text) →
  p = templateFilePath host n
  ∧ fs w' !! p = Some (Fs.File text)
  ∧ fs w' !! templateFilePath host "default" = Some (Fs.File text)
  ∧ outcome (existsTemplate host n) w' = Return true.
Proof.
  intros Hrun Hdefault.
  rewrite createNewFileTemplate_run, getTemplateRenderEstructure_run in Hrun.
  cbv zeta in Hrun. rewrite Hdefault in Hrun.
  destruct (Nat.eqb (String.length text) 0); [done|].
  rewrite createFileTemplate_run in Hrun.
  destruct (Fs.existsSync (fs w) (templateFilePath host n)) eqn:Hname; [done|].
  apply existsSync_false in Hname.
  assert (templateFilePath host n ≠ templateFilePath host "default") as Hne
    by congruence.
  pose proof (createTemplatesDirIfNotExists_effects host w) as [_ Hdisk].
  unfold outcome, worldAfter in Hdisk.
  destruct (createTemplatesDirIfNotExists host w) as [[[]|e] w1]; [|done].
  simpl in Hdisk.
  destruct (Fs.writeFileSync (fs w1) (templateFilePath host n) text) as [err|disk] eqn:Hw;
    [done|].
  injection Hrun as <- <-. simpl.
  assert (disk = <[templateFilePath host n := Fs.File text]> (fs w1)) as ->.
  { unfold Fs.writeFileSync in Hw. repeat case_match; congruence. }
  split; [done|]. split; [apply lookup_insert_eq|]. split.
  - rewrite lookup_insert_ne by done.
    destruct Hdisk as [->|(Hdir & _ & ->)]; [done|].
    rewrite lookup_insert_ne by congruence. done.
  - unfold outcome, existsTemplate, fs_read. simpl. f_equal.
    apply existsSync_true. rewrite lookup_insert_eq. by eexists.
Qed.

Lemma createNewFileTemplate_copies_default_witness :
  fs (worldAfter (createNewFileTemplate Demo.host "header") Demo.withDefault)
    !! "/ext/out/templates/header.js" = Some (Fs.File Demo.skeleton)
  ∧ fs (worldAfter (createNewFileTemplate Demo.host "header") Demo.withDefault)
      !! "/ext/out/templates/default.js" = Some (Fs.File Demo.skeleton).
Proof.
  destruct (createNewFileTemplate_copies_default Demo.host "header" Demo.skeleton
              Demo.withDefault "/ext/out/templates/header.js"
              (worldAfter (createNewFileTemplate Demo.host "header") Demo.withDefault))
    as (_ & Hfile & Hdefault & _); [vm_compute; reflexivity ..|].
  split; [exact Hfile | exact Hdefault].
Defined.

(** X9. The skeleton comes first: when [getTemplateRenderEstructure] throws,
    [createNewFileTemplate] throws the same error for every name, also for a
    name that is already taken, and neither the disk nor the saved state
    changes. *)
Theorem createNewFileTemplate_skeleton_error_first host n w e :
  outcome (getTemplateRenderEstructure host) w = Throw e →
  outcome (createNewFileTemplate host n) w = Throw e
  ∧ fs (worldAfter (createNewFileTemplate host n) w) = fs w
  ∧ state (worldAfter (createNewFileTemplate host n) w) = state w.
Proof.
  intros Hthrow.
  pose proof (getTemplateRenderEstructure_effects host w) as (Hfs & Hstate & _).
  unfold outcome, worldAfter in *. rewrite createNewFileTemplate_run.
  destruct (getTemplateRenderEstructure host w) as [c w1]; simpl in *. subst c.
  by simpl.
Qed.

Lemma createNewFileTemplate_skeleton_error_first_witness :
  outcome (existsTemplate Demo.host "default") Demo.emptyDefault = Return true
  ∧ outcome (createNewFileTemplate Demo.host "default") Demo.emptyDefault
    = Throw (Js.newError "Sorry, Cannot retrieve a template renderer default.").
Proof.
  split; [vm_compute; reflexivity|].
  apply (createNewFileTemplate_skeleton_error_first Demo.host "default" Demo.emptyDefault).
  vm_compute; reflexivity.
Defined.

(** X10. The constructor caches the skeleton: when it returns, the text that
    [getTemplateRenderEstructure] gave is saved under ["defaultTemplate"], it
    is not empty, and the disk and the log are as before.  From then on, with
    that text still saved, [getTemplateRenderEstructure] returns it in every
    world that has no [default] template, so the cache stands in for a
    template that was removed. *)
Theorem constructor_caches_skeleton host w w1 :
  constructor host w = (Return (), w1) →
  ∃ text,
    outcome (getTemplateRenderEstructure host) w = Return text
    ∧ text ≠ ""
    ∧ w1 = mkWorld (fs w) (<["defaultTemplate" := text]> (state w)) (logged w)
    ∧ ∀ w2,
        state w2 !! "defaultTemplate" = Some text →
        fs w2 !! templateFilePath host "default" = None →
        getTemplateRenderEstructure host w2 = (Return text, w2).
Proof.
  unfold constructor, bind, ContextManager.saveState.
  pose proof (getTemplateRenderEstructure_effects host w) as (_ & _ & Htext).
  unfold outcome, worldAfter in *.
  destruct (getTemplateRenderEstructure host w) as [[text|e] w0]; [|done].
  destruct (Htext text eq_refl) as [Hne Hw]. simpl in Hw. subst w0.
  intros [= <-]. exists text. repeat split; try done.
  intros w2 Hsaved Hnone. rewrite getTemplateRenderEstructure_run. cbv zeta.
  rewrite Hnone, Hsaved. by destruct text.
Qed.

Lemma constructor_caches_skeleton_witness :
  ∃ w1,
    constructor Demo.host Demo.withDefault = (Return (), w1)
    ∧ state w1 !! "defaultTemplate" = Some Demo.skeleton
    ∧ getTemplateRenderEstructure Demo.host (mkWorld (fs Demo.fresh) (state w1) [])
      = (Return Demo.skeleton, mkWorld (fs Demo.fresh) (state w1) []).
Proof.
  exists (worldAfter (constructor Demo.host) Demo.withDefault).
  split; [vm_compute; reflexivity|]. split; [vm_compute; reflexivity|].
  destruct (constructor_caches_skeleton Demo.host Demo.withDefault
              (worldAfter (constructor Demo.host) Demo.withDefault))
    as (text & Hskeleton & _ & _ & Hcached); [vm_compute; reflexivity|].
  vm_compute in Hskeleton. injection Hskeleton as <-.
  apply Hcached; vm_compute; reflexivity.
Defined.

(** *** The renderer *)

(** X11. [renderTemplateContent] returns a string exactly when the module at
    [template.path] loads and its function returns that string for the
    options: the string is handed on as it is. *)
Theorem renderTemplateContent_returns_iff host t opts w content :
  outcome (renderTemplateContent host t opts) w = Return content
  ↔ ∃ templateRender,
      outcome (require host (path t)) w = Return templateRender
      ∧ templateRender opts = Return content.
Proof.
  unfold outcome at 1. rewrite renderTemplateContent_run.
  destruct (outcome (require host (path t)) w) as [templateRender|e] eqn:Hload.
  - destruct (templateRender opts) as [c|e] eqn:Hcall.
    + simpl. split.
      * intros [= ->]. by exists templateRender.
      * intros (f & [= <-] & Hf). congruence.
    + destruct (Js.toString e); simpl; (split; [done|]);
        intros (f & [= <-] & Hf); congruence.
  - simpl. split; [done|]. by intros (f & [=] & _).
Qed.

(** X12. Whatever goes wrong in [renderTemplateContent], the caller gets an
    [Error]: never a [SyntaxError], never the value the template threw.  Its
    message is the generic one, or the syntax-error prefix followed by the
    text of what the template's function threw, or the message of a
    [SyntaxError] thrown while the module was loading. *)
Theorem renderTemplateContent_throws_Error host t opts w e :
  outcome (renderTemplateContent host t opts) w = Throw e →
  ∃ msg,
    e = Js.newError msg
    ∧ (msg = "An error as ocurred rendering a template."
       ∨ (∃ templateRender thrown text,
            outcome (require host (path t)) w = Return templateRender
            ∧ templateRender opts = Throw thrown
            ∧ Js.toString thrown = Return text
            ∧ msg = "Your template has sintax errors: " +:+ text)
       ∨ (∃ thrown,
            outcome (require host (path t)) w = Throw thrown
            ∧ Js.instanceofSyntaxError thrown = true
            ∧ msg = Js.message thrown)).
Proof.
  unfold outcome at 1. rewrite renderTemplateContent_run.
  destruct (outcome (require host (path t)) w) as [templateRender|thrown] eqn:Hload.
  - destruct (templateRender opts) as [c|thrown] eqn:Hcall; [done|].
    destruct (Js.toString thrown) as [text|] eqn:Htext; simpl; intros [= <-];
      eexists; (split; [reflexivity|]); [|by left].
    right; left. by exists templateRender, thrown, text.
  - simpl. intros [= <-]. eexists; split; [reflexivity|].
    destruct (Js.instanceofSyntaxError thrown) eqn:Hclass; [|by left].
    right; right. by exists thrown.
Qed.

Lemma renderTemplateContent_throws_Error_witness :
  ∃ msg,
    Js.newError "Your template has sintax errors: Error: boom" = Js.newError msg
    ∧ msg ≠ "".
Proof.
  destruct (renderTemplateContent_throws_Error Demo.host (Demo.template "boom")
              (templateOptions Demo.host "world.txt" "/work") Demo.stocked
              (Js.newError "Your template has sintax errors: Error: boom"))
    as (msg & Heq & _); [vm_compute; reflexivity|].
  exists msg. split; [exact Heq|]. injection Heq as <-. discriminate.
Defined.

(** *** Creating a file from a template *)

(** X13. [createNewFileBasedOnTemplate] adds no failure of its own.  When the
    template is there under [name + ".js"], something is at the path of the
    target directory, the module loads, its function returns a string, and
    [writeFileSync] writes that string at [join(targetDir, newFileName)] on
    the disk as the rendering step left it, then the call returns that path
    and the disk it leaves is the one the write left. *)
Theorem createNewFileBasedOnTemplate_succeeds
    host t newFileName dir w templateRender content disk :
  outcome (existsTemplate host (name t)) w = Return true →
  Fs.existsSync (fs w) dir = true →
  outcome (require host (path t)) w = Return templateRender →
  templateRender (templateOptions host newFileName dir) = Return content →
  Fs.writeFileSync
    (fs (worldAfter
           (renderTemplateContent host t (templateOptions host newFileName dir)) w))
    (Path.join [dir; newFileName]) content = inr disk →
  outcome (createNewFileBasedOnTemplate host t newFileName dir) w
    = Return (Path.join [dir; newFileName])
  ∧ fs (worldAfter (createNewFileBasedOnTemplate host t newFileName dir) w) = disk.
Proof.
  unfold outcome at 1, existsTemplate, fs_read; simpl.
  intros [= Hname] Hdir Hload Hcall Hwrite.
  assert (renderTemplateContent host t (templateOptions host newFileName dir) w
          = (Return content,
             logging w [("Template Content: " +:+ newline +:+ content, info)]))
    as Hrender.
  { by rewrite renderTemplateContent_run, Hload, Hcall. }
  unfold worldAfter in Hwrite. rewrite Hrender in Hwrite. simpl in Hwrite.
  unfold outcome, worldAfter.
  rewrite createNewFileBasedOnTemplate_run, Hname, Hdir, Hrender. simpl.
  by rewrite Hwrite.
Qed.

Lemma createNewFileBasedOnTemplate_succeeds_witness :
  outcome (createNewFileBasedOnTemplate Demo.host (Demo.template "greet")
             "world.txt" "/work") Demo.stocked = Return "/work/world.txt"
  ∧ fs (worldAfter (createNewFileBasedOnTemplate Demo.host (Demo.template "greet")
                      "world.txt" "/work") Demo.stocked)
    = <["/work/world.txt" := Fs.File "Hello, world"]> (fs Demo.stocked).
Proof.
  apply (createNewFileBasedOnTemplate_succeeds Demo.host (Demo.template "greet")
           "world.txt" "/work" Demo.stocked
           (λ o, Return ("Hello, " +:+ fileName (createdFile o))) "Hello, world");
    vm_compute; reflexivity.
Defined.



(** X15. The guard on the target directory asks only whether something is at
    that path.  When the path is a file, the template is rendered all the
    same and the call ends in the system error of the write, not in the
    directory-missing error. *)
Theorem createNewFileBasedOnTemplate_target_is_a_file
    host t newFileName dir w text templateRender content :
  outcome (existsTemplate host (name t)) w = Return true →
  fs w !! dir = Some (Fs.File text) →
  Path.dirname (Path.join [dir; newFileName]) = dir →
  fs w !! Path.join [dir; newFileName] = None →
  outcome (require host (path t)) w = Return templateRender →
  templateRender (templateOptions host newFileName dir) = Return content →
  outcome (createNewFileBasedOnTemplate host t newFileName dir) w
    = Throw (Fs.thrown (Fs.ENOTDIR "open" (Path.join [dir; newFileName])))
  ∧ logged (worldAfter (createNewFileBasedOnTemplate host t newFileName dir) w)
    = (logged w ++ [("Template Content: " +:+ newline +:+ content, info)])%list.
Proof.
  unfold outcome at 1, existsTemplate, fs_read; simpl.
  intros [= Hname] Hdir Hinside Hfree Hload Hcall.
  unfold outcome, worldAfter.
  rewrite createNewFileBasedOnTemplate_run, Hname.
  rewrite (proj2 (existsSync_true _ _)) by eauto.
  rewrite renderTemplateContent_run, Hload, Hcall. rewrite logging_fs.
  unfold Fs.writeFileSync, Fs.parentOf. by rewrite Hfree, Hinside, Hdir.
Qed.

Lemma createNewFileBasedOnTemplate_target_is_a_file_witness :
  Fs.existsSync (fs Demo.stocked) "/work/notes.txt" = true
  ∧ outcome (createNewFileBasedOnTemplate Demo.host (Demo.template "greet")
               "world.txt" "/work/notes.txt") Demo.stocked
    = Throw (Js.newError "ENOTDIR: not a directory, open '/work/notes.txt/world.txt'").
Proof.
  split; [vm_compute; reflexivity|].
  apply (createNewFileBasedOnTemplate_target_is_a_file Demo.host (Demo.template "greet")
           "world.txt" "/work/notes.txt" Demo.stocked "old notes"
           (λ o, Return ("Hello, " +:+ fileName (createdFile o))) "Hello, world");
    vm_compute; reflexivity.
Defined.

(** *** The catalog *)

Lemma JsMap_set_fresh {V} (m : JsMap.t V) key value :
  JsMap.get m key = None → JsMap.set m key value = (m ++ [(key, value)])%list.
Proof.
  induction m as [|[k v] m IH]; simpl; [done|].
  destruct (String.eqb k key); [done|]. intros H. f_equal. by apply IH.
Qed.

(** The loop of [useTemplates] appends: the keys it ends with are the keys it
    started with, followed by some of the stems in the order of the files. *)
Lemma fold_addTemplate_keys templatesDir files templates :
  ∃ added,
    JsMap.keys (fold_left (addTemplate templatesDir) files templates)
      = (JsMap.keys templates ++ added)%list
    ∧ sublist added (stem <$> files).
Proof.
  revert templates. induction files as [|f files IH]; intros templates; simpl.
  - exists []. by rewrite app_nil_r.
  - destruct (IH (addTemplate templatesDir templates f)) as (added & Hkeys & Hsub).
    rewrite Hkeys, addTemplate_unfold.
    destruct (JsMap.get templates (stem f)) as [t|] eqn:Hget; cbv beta iota.
    + exists added. split; [done|]. by apply sublist_cons.
    + exists (stem f :: added).
      rewrite (JsMap_keys_set_fresh templates (stem f) (entryOf templatesDir f) Hget).
      rewrite <- app_assoc. split; [done|]. by apply sublist_skip.
Qed.

(** X16. [useTemplates] never throws and never changes the disk or the saved
    state.  When the directory can be listed the promise resolves and the
    world is exactly as before; when it cannot, the promise is rejected with
    the system error of the listing, and one message went to the log. *)
Theorem useTemplates_settles host w :
  ∃ settled,
    outcome (useTemplates host) w = Return settled
    ∧ fs (worldAfter (useTemplates host) w) = fs w
    ∧ state (worldAfter (useTemplates host) w) = state w
    ∧ match settled with
      | Resolved _ =>
          (∃ files, Fs.readdir (fs w) (templatesDirPath host) = inr files)
          ∧ worldAfter (useTemplates host) w = w
      | Rejected reason =>
          Fs.readdir (fs w) (templatesDirPath host) = inl reason
          ∧ logged (worldAfter (useTemplates host) w)
            = (logged w ++ [(Fs.errno_message reason +:+ "undefined", error)])%list
      end.
Proof.
  unfold outcome, worldAfter, useTemplates, bind, fs_read, onReaddir, ret,
    ContextManager.log.
  cbv beta iota.
  destruct (Fs.readdir (fs w) (templatesDirPath host)) as [reason|files]; simpl.
  - exists (Rejected reason). done.
  - eexists (Resolved _). repeat split; eauto.
Qed.

(** X17. When no two files of the listing share a stem, the catalog has one
    entry per file, in the order of the listing: nothing is dropped. *)
Theorem useTemplates_distinct_stems host w files :
  Fs.readdir (fs w) (templatesDirPath host) = inr files →
  NoDup (stem <$> files) →
  outcome (useTemplates host) w
  = Return (Resolved
              ((λ f, (stem f, mkTemplate (stem f) f (Path.join [templatesDirPath host; f])))
                 <$> files)).
Proof.
  intros Hlisting Hdistinct.
  unfold outcome, useTemplates, bind, fs_read, onReaddir, ret. cbv beta iota.
  rewrite Hlisting. simpl. do 2 f_equal.
  generalize (templatesDirPath host). intros dir.
  assert (∀ acc : JsMap.t TTemplate,
            NoDup (JsMap.keys acc ++ (stem <$> files)) →
            fold_left (addTemplate dir) files acc
            = (acc ++ ((λ f, (stem f, entryOf dir f)) <$> files))%list) as Hfold.
  { clear Hdistinct Hlisting. induction files as [|f files IH]; intros acc Hnd; simpl.
    - by rewrite app_nil_r.
    - assert (JsMap.get acc (stem f) = None) as Hfree.
      { apply eq_None_not_Some. rewrite <- JsMap_elem_of_keys. intros Hin.
        apply NoDup_app in Hnd as (_ & Hdisj & _). apply (Hdisj _ Hin). left. }
      assert (addTemplate dir acc f = (acc ++ [(stem f, entryOf dir f)])%list) as ->.
      { rewrite addTemplate_unfold, Hfree. by apply JsMap_set_fresh. }
      rewrite IH; [by rewrite <- app_assoc|].
      unfold JsMap.keys. rewrite fmap_app, <- app_assoc. exact Hnd. }
  apply (Hfold []). exact Hdistinct.
Qed.

Lemma useTemplates_distinct_stems_witness :
  Fs.readdir (fs Demo.stocked) (templatesDirPath Demo.host)
    = inr ["boom.js"; "broken.js"; "greet.js"; "null.js"; "readme.txt"]
  ∧ outcome (useTemplates Demo.host) Demo.stocked
    = Return (Resolved
                [("boom", mkTemplate "boom" "boom.js" "/ext/out/templates/boom.js");
                 ("broken", mkTemplate "broken" "broken.js" "/ext/out/templates/broken.js");
                 ("greet", mkTemplate "greet" "greet.js" "/ext/out/templates/greet.js");
                 ("null", mkTemplate "null" "null.js" "/ext/out/templates/null.js");
                 ("readme",
                  mkTemplate "readme" "readme.txt" "/ext/out/templates/readme.txt")]).
Proof.
  split; [vm_compute; reflexivity|].
  rewrite (useTemplates_distinct_stems Demo.host Demo.stocked
             ["boom.js"; "broken.js"; "greet.js"; "null.js"; "readme.txt"]);
    [vm_compute; reflexivity | vm_compute; reflexivity |].
  change (stem <$> ["boom.js"; "broken.js"; "greet.js"; "null.js"; "readme.txt"])
    with ["boom"; "broken"; "greet"; "null"; "readme"].
  apply (bool_decide_unpack _). vm_compute. exact I.
Defined.

(** X18. The catalog follows the listing: its keys are stems of listed files,
    in the order in which the listing has them, so it never holds more
    entries than the directory has files. *)
Theorem useTemplates_keys_in_listing_order host w files :
  Fs.readdir (fs w) (templatesDirPath host) = inr files →
  ∃ catalog,
    outcome (useTemplates host) w = Return (Resolved catalog)
    ∧ sublist (JsMap.keys catalog) (stem <$> files)
    ∧ (JsMap.size catalog ≤ length files)%nat.
Proof.
  intros Hlisting.
  exists (fold_left (addTemplate (templatesDirPath host)) files JsMap.empty).
  split.
  { unfold outcome, useTemplates, bind, fs_read, onReaddir, ret. cbv beta iota.
    by rewrite Hlisting. }
  destruct (fold_addTemplate_keys (templatesDirPath host) files JsMap.empty)
    as (added & Hkeys & Hsub).
  simpl in Hkeys. rewrite Hkeys. split; [exact Hsub|].
  unfold JsMap.size. rewrite <- (length_fmap fst). fold (JsMap.keys
    (fold_left (addTemplate (templatesDirPath host)) files JsMap.empty)).
  rewrite Hkeys. apply sublist_length in Hsub. by rewrite length_fmap in Hsub.
Qed.

Lemma useTemplates_keys_in_listing_order_witness :
  ∃ catalog,
    outcome (useTemplates Demo.host) Demo.duplicates = Return (Resolved catalog)
    ∧ sublist (JsMap.keys catalog) ["a"; "a"; "b"]
    ∧ (JsMap.size catalog ≤ 3)%nat.
Proof.
  apply (useTemplates_keys_in_listing_order Demo.host Demo.duplicates
           ["a.ext"; "a.ext2"; "b.ext"]).
  vm_compute; reflexivity.
Defined.

(** *** Plain file names

    What [extname] and [basename] make of a name that holds no separator. *)

(** *** Strings as lists of characters *)

Lemma chars_length s : length (list_ascii_of_string s) = String.length s.
Proof. induction s as [|c s IH]; simpl; congruence. Qed.

Lemma chars_append a b :
  list_ascii_of_string (a +:+ b) = (list_ascii_of_string a ++ list_ascii_of_string b)%list.
Proof. induction a as [|c a IH]; simpl; [done|]. by rewrite IH. Qed.

Lemma chars_substring s : ∀ n m,
  list_ascii_of_string (String.substring n m s) = take m (drop n (list_ascii_of_string s)).
Proof.
  induction s as [|c s IH]; intros n m.
  - destruct n, m; reflexivity.
  - destruct n as [|n]; simpl.
    + destruct m as [|m]; simpl; [done|]. by rewrite IH.
    + apply IH.
Qed.

Lemma chars_get s : ∀ n, String.get n s = list_ascii_of_string s !! n.
Proof.
  induction s as [|c s IH]; intros n; [by destruct n|].
  destruct n as [|n]; simpl; [done|]. apply IH.
Qed.

Lemma chars_inj a b : list_ascii_of_string a = list_ascii_of_string b → a = b.
Proof.
  intros H. rewrite <- (string_of_list_ascii_of_string a), H.
  apply string_of_list_ascii_of_string.
Qed.

Lemma strlen_chars s : Path.strlen s = Z.of_nat (length (list_ascii_of_string s)).
Proof. unfold Path.strlen. by rewrite chars_length. Qed.

Lemma chars_slice s from to :
  0 ≤ from →
  list_ascii_of_string (Path.slice s from to)
  = take (Z.to_nat (to - from)) (drop (Z.to_nat from) (list_ascii_of_string s)).
Proof. intros _. unfold Path.slice. apply chars_substring. Qed.

(** *** [extname] on a plain name *)

Section PlainNames.

Local Arguments Z.eqb : simpl never.
Local Arguments Z.leb : simpl never.
Local Arguments Z.ltb : simpl never.
Local Arguments Z.add : simpl never.
Local Arguments Z.sub : simpl never.

Lemma extname_loop_after_dot r : ∀ i st,
  Forall (λ c, Path.isSep c = false) r →
  Path.startDot st ≠ -1 → Path.ext_end st ≠ -1 →
  Path.startDot (Path.extname_loop r i st) = Path.startDot st
  ∧ Path.startPart (Path.extname_loop r i st) = Path.startPart st
  ∧ Path.ext_end (Path.extname_loop r i st) = Path.ext_end st
  ∧ (r ≠ [] ∨ Path.preDotState st ≠ 0 → Path.preDotState (Path.extname_loop r i st) ≠ 0).
Proof.
  induction r as [|c r IH]; intros i [sd sp ee ms pd] Hplain Hsd Hee; simpl in *.
  - repeat split; try done. by intros [?|?].
  - apply Forall_cons in Hplain as [Hc Hplain]. rewrite Hc.
    rewrite (proj2 (Z.eqb_neq ee (-1))) by done. simpl.
    rewrite (proj2 (Z.eqb_neq sd (-1))) by done. simpl.
    destruct (Path.isDot c).
    + destruct (pd =? 1) eqn:Hpd; simpl.
      * apply Z.eqb_eq in Hpd as ->.
        destruct (IH (i - 1) (Path.mkExtScan sd sp ee ms 1) Hplain Hsd Hee)
          as (? & ? & ? & Hp); simpl in *.
        repeat split; try done. intros _. apply Hp. by right.
      * destruct (IH (i - 1) (Path.mkExtScan sd sp ee ms 1) Hplain Hsd Hee)
          as (? & ? & ? & Hp); simpl in *.
        repeat split; try done. intros _. apply Hp. by right.
    + destruct (IH (i - 1) (Path.mkExtScan sd sp ee ms (-1)) Hplain Hsd Hee)
        as (? & ? & ? & Hp); simpl in *.
      repeat split; try done. intros _. apply Hp. by right.
Qed.

Lemma extname_loop_plain r : ∀ i st,
  Forall (λ c, Path.isSep c = false) r →
  i = Z.of_nat (length r) - 1 →
  Path.startDot st = -1 → Path.preDotState st = 0 →
  Path.startPart (Path.extname_loop r i st) = Path.startPart st
  ∧ (Path.startDot (Path.extname_loop r i st) = -1
     ∨ (Path.ext_end (Path.extname_loop r i st)
          = (if Path.ext_end st =? -1 then i + 1 else Path.ext_end st)
        ∧ 0 ≤ Path.startDot (Path.extname_loop r i st) ≤ i
        ∧ (Path.preDotState (Path.extname_loop r i st) ≠ 0
           → 1 ≤ Path.startDot (Path.extname_loop r i st)))).
Proof.
  induction r as [|c r IH]; intros i [sd sp ee ms pd] Hplain Hi Hsd Hpd;
    simpl in *; subst sd pd.
  - split; [done|]. by left.
  - apply Forall_cons in Hplain as [Hc Hplain]. rewrite Hc.
    assert ((if ee =? -1 then i + 1 else ee) ≠ -1) as Hend.
    { destruct (Z.eqb_spec ee (-1)); lia. }
    destruct (Path.isDot c).
    + (* the last dot of the name *)
      destruct (ee =? -1) eqn:Hee; simpl;
        match goal with
        | |- context [Path.extname_loop r (i - 1) ?st2] =>
            destruct (extname_loop_after_dot r (i - 1) st2 Hplain)
              as (Hd & Hp & He & _); simpl; [lia | lia |]
        end;
        simpl in *; rewrite Hd, Hp, He; (split; [done|]); right;
        (split; [done|]); (split; [lia|]);
        destruct r as [|c' r]; simpl in *; [done | lia | done | lia].
    + destruct (ee =? -1) eqn:Hee; simpl;
        match goal with
        | |- context [Path.extname_loop r (i - 1) ?st2] =>
            destruct (IH (i - 1) st2 Hplain) as (Hp & Hcases); simpl; [lia | done | done |]
        end;
        simpl in *; (split; [done|]);
        (destruct Hcases as [Hno|(He & Hrange & Hone)]; [by left | right]);
        rewrite He.
      * replace (i + 1 =? -1) with false by (symmetry; apply Z.eqb_neq; lia).
        split; [done|]. split; [lia | done].
      * rewrite Hee. split; [done|]. split; [lia | done].
Qed.

(** On a name without separators [extname] is empty or is what the name holds
    from some position on, and that position is not the first. *)
Lemma extname_plain f :
  plainName f →
  Path.extname f = ""
  ∨ ∃ d, 1 ≤ d < Path.strlen f ∧ Path.extname f = Path.slice f d (Path.strlen f).
Proof.
  intros Hplain. unfold Path.extname.
  destruct (extname_loop_plain (rev (list_ascii_of_string f)) (Path.strlen f - 1)
              (Path.mkExtScan (-1) 0 (-1) true 0)) as (Hpart & Hcases);
    [by apply Forall_rev | by rewrite length_rev, strlen_chars | done | done |].
  set (st := Path.extname_loop _ _ _) in *. simpl in Hpart, Hcases.
  destruct Hcases as [Hno|(Hend & Hrange & Hone)].
  - left. by rewrite Hno.
  - rewrite Hend. replace (Path.strlen f - 1 + 1) with (Path.strlen f) by lia.
    destruct (_ || _) eqn:Htest; [by left|]. right.
    apply orb_false_elim in Htest as [Htest _].
    apply orb_false_elim in Htest as [_ Hpre]. apply Z.eqb_neq in Hpre.
    exists (Path.startDot st). split; [|done]. specialize (Hone Hpre). lia.
Qed.

(** A name that ends in [".js"] after at least one character has the
    extension [".js"]. *)
Lemma extname_js n :
  plainName n → n ≠ "" → Path.extname (n +:+ ".js") = ".js".
Proof.
  intros Hplain Hne. unfold Path.extname.
  assert (Path.strlen (n +:+ ".js") = Path.strlen n + 3) as Hlen.
  { rewrite !strlen_chars, chars_append, length_app. simpl. lia. }
  assert (0 < Path.strlen n) as Hpos.
  { destruct n; [done|]. unfold Path.strlen. simpl. lia. }
  assert (rev (list_ascii_of_string n) ≠ []) as Hrev.
  { destruct n; [done|]. simpl. by destruct (rev _). }
  apply Forall_rev in Hplain.
  rewrite chars_append, rev_app_distr, Hlen.
  change (rev (list_ascii_of_string ".js")) with ["s"; "j"; "."]%char.
  set (r := rev (list_ascii_of_string n)) in *. set (L := Path.strlen n) in *.
  simpl.
  repeat match goal with
         | |- context [?a =? ?b] =>
             first [ replace (a =? b) with false by (symmetry; apply Z.eqb_neq; lia)
                   | replace (a =? b) with true by (symmetry; apply Z.eqb_eq; lia) ];
             simpl
         end.
  match goal with
  | |- context [Path.extname_loop r ?i ?st] =>
      destruct (extname_loop_after_dot r i st Hplain) as (Hd & Hp & He & Hpre);
        [simpl; lia | simpl; lia |];
        simpl in Hd, Hp, He, Hpre; rewrite Hd, Hp, He;
        rewrite (proj2 (Z.eqb_neq _ 0) (Hpre (or_introl Hrev)))
  end.
  repeat match goal with
         | |- context [?a =? ?b] =>
             first [ replace (a =? b) with false by (symmetry; apply Z.eqb_neq; lia)
                   | replace (a =? b) with true by (symmetry; apply Z.eqb_eq; lia) ];
             simpl
         end.
  rewrite ?andb_false_r. simpl.
  apply chars_inj. rewrite chars_slice by lia. rewrite chars_append.
  replace (Z.to_nat (L + 3 - 1 - 1 - 1)) with (length (list_ascii_of_string n))
    by (unfold L; rewrite strlen_chars; lia).
  rewrite drop_app_length. simpl.
  match goal with
  | |- take ?k _ = _ => replace k with 3%nat by lia
  end.
  reflexivity.
Qed.

(** *** [basename] on a plain name *)

Lemma basename_loop_plain r : ∀ i st,
  Forall (λ c, Path.isSep c = false) r →
  i = Z.of_nat (length r) - 1 →
  Path.base_start (Path.basename_loop r i st) = Path.base_start st
  ∧ Path.base_end (Path.basename_loop r i st)
    = match r with
      | [] => Path.base_end st
      | _ => if Path.base_end st =? -1 then i + 1 else Path.base_end st
      end.
Proof.
  induction r as [|c r IH]; intros i [bs be ms ei fn] Hplain Hi; simpl in *; [done|].
  apply Forall_cons in Hplain as [Hc Hplain]. rewrite Hc.
  destruct (be =? -1) eqn:Hbe.
  - destruct (IH (i - 1) (Path.mkBaseScan bs (i + 1) false ei fn) Hplain) as [Hs He];
      [lia|].
    rewrite Hs, He. simpl. split; [done|]. destruct r; [done|].
    destruct (Z.eqb_spec (i + 1) (-1)); [lia | done].
  - destruct (IH (i - 1) (Path.mkBaseScan bs be ms ei fn) Hplain) as [Hs He]; [lia|].
    rewrite Hs, He. simpl. split; [done|]. destruct r; [done|]. by rewrite Hbe.
Qed.

Lemma slice_all f : Path.slice f 0 (Path.strlen f) = f.
Proof.
  apply chars_inj. rewrite chars_slice by lia. simpl.
  rewrite drop_0, strlen_chars, Z.sub_0_r, Nat2Z.id. apply firstn_all.
Qed.

(** Without a suffix, the base name of a plain name is the name. *)
Lemma basename_plain f : plainName f → Path.basename f "" = f.
Proof.
  intros Hplain. destruct f as [|c f]; [reflexivity|].
  unfold Path.basename.
  change ((0 <? Path.strlen "") && (Path.strlen "" <=? Path.strlen (String c f)))
    with false.
  cbv iota zeta.
  destruct (basename_loop_plain (rev (list_ascii_of_string (String c f)))
              (Path.strlen (String c f) - 1)
              (Path.mkBaseScan 0 (-1) true 0 (-1))) as [Hs He];
    [by apply Forall_rev | by rewrite length_rev, strlen_chars |].
  rewrite Hs, He. simpl Path.base_start. simpl Path.base_end.
  assert (rev (list_ascii_of_string (String c f)) ≠ []) as Hrev.
  { intros H. apply (f_equal length) in H. by rewrite length_rev in H. }
  destruct (rev (list_ascii_of_string (String c f))); [done|].
  change (-1 =? -1) with true. cbv iota.
  replace (Path.strlen (String c f) - 1 + 1 =? -1) with false
    by (symmetry; apply Z.eqb_neq; unfold Path.strlen; lia).
  replace (Path.strlen (String c f) - 1 + 1) with (Path.strlen (String c f)) by lia.
  apply slice_all.
Qed.

Lemma basename_suffix_loop_idle suffix r : ∀ i st,
  Forall (λ c, Path.isSep c = false) r →
  Path.extIdx st = -1 →
  Path.base_start (Path.basename_suffix_loop suffix r i st) = Path.base_start st
  ∧ Path.base_end (Path.basename_suffix_loop suffix r i st) = Path.base_end st.
Proof.
  induction r as [|c r IH]; intros i [bs be ms ei fn] Hplain Hidx; simpl in *; [done|].
  apply Forall_cons in Hplain as [Hc Hplain]. rewrite Hc. subst ei.
  destruct (fn =? -1); simpl;
    change (0 <=? -1) with false; cbv iota;
    match goal with
    | |- context [Path.basename_suffix_loop suffix r (i - 1) ?st2] =>
        destruct (IH (i - 1) st2 Hplain) as [Hs He]; [done|]
    end; by rewrite Hs, He.
Qed.

(** The characters of the suffix are matched from the last one to the first;
    when the first one has matched, the end of the base name is known. *)
Lemma basename_suffix_loop_match suffix a : ∀ b i st,
  list_ascii_of_string suffix = (a ++ b)%list →
  Forall (λ c, Path.isSep c = false) a →
  a ≠ [] →
  Path.extIdx st = Z.of_nat (length a) - 1 →
  Path.base_start (Path.basename_suffix_loop suffix (rev a) i st) = Path.base_start st
  ∧ Path.base_end (Path.basename_suffix_loop suffix (rev a) i st)
    = i - Z.of_nat (length a) + 1
  ∧ Path.extIdx (Path.basename_suffix_loop suffix (rev a) i st) = -1.
Proof.
  induction a as [|c a IH] using rev_ind; intros b i [bs be ms ei fn] Hsuffix Hplain Hne Hidx;
    [done|].
  rewrite rev_app_distr. simpl in *. subst ei.
  apply Forall_app in Hplain as [Hplain Hc]. apply Forall_inv in Hc. simpl in Hc. rewrite Hc.
  rewrite length_app. simpl.
  assert (Path.charAt suffix (Z.of_nat (length a + 1) - 1) = Some c) as Hchar.
  { unfold Path.charAt. replace (Z.of_nat (length a + 1) - 1 <? 0) with false
      by (symmetry; apply Z.ltb_ge; lia).
    rewrite chars_get, Hsuffix.
    replace (Z.to_nat (Z.of_nat (length a + 1) - 1)) with (length a) by lia.
    rewrite <- app_assoc. simpl. by apply list_lookup_middle. }
  destruct (fn =? -1); simpl;
    replace (0 <=? Z.of_nat (length a + 1) - 1) with true
      by (symmetry; apply Z.leb_le; lia);
    cbv iota; rewrite Hchar; rewrite bool_decide_eq_true_2 by done;
    (destruct a as [|c' a'];
     [ change (Z.of_nat (length (@nil ascii) + 1) - 1 - 1 =? -1) with true;
       simpl; split; [done|]; split; [lia | reflexivity]
     | replace (Z.of_nat (length (c' :: a') + 1) - 1 - 1 =? -1) with false
         by (symmetry; apply Z.eqb_neq; simpl length; lia);
       cbv iota;
       match goal with
       | |- context [Path.basename_suffix_loop suffix (rev (c' :: a')) (i - 1) ?st2] =>
           destruct (IH (c :: b) (i - 1) st2) as (Hs & He & Hi);
             [ by rewrite Hsuffix, <- app_assoc | done | done | simpl; lia |];
             rewrite Hs, He, Hi; simpl; split; [done|]; split; [lia | done]
       end ]).
Qed.

Lemma basename_suffix_loop_app suffix r1 : ∀ r2 i st,
  Forall (λ c, Path.isSep c = false) r1 →
  Path.basename_suffix_loop suffix (r1 ++ r2) i st
  = Path.basename_suffix_loop suffix r2 (i - Z.of_nat (length r1))
      (Path.basename_suffix_loop suffix r1 i st).
Proof.
  induction r1 as [|c r1 IH]; intros r2 i st Hplain.
  - simpl. by rewrite Z.sub_0_r.
  - apply Forall_cons in Hplain as [Hc Hplain].
    replace (i - Z.of_nat (length (c :: r1))) with (i - 1 - Z.of_nat (length r1))
      by (simpl length; lia).
    simpl. rewrite Hc. apply IH, Hplain.
Qed.

(** Stripping from a plain name what it holds from position [d] on leaves
    what it holds before [d]. *)
Lemma basename_own_suffix f d :
  plainName f → 1 ≤ d < Path.strlen f →
  Path.basename f (Path.slice f d (Path.strlen f)) = Path.slice f 0 d.
Proof.
  intros Hplain Hd. unfold plainName in Hplain.
  set (suffix := Path.slice f d (Path.strlen f)).
  set (l := list_ascii_of_string f) in *.
  assert (Path.strlen f = Z.of_nat (length l)) as Hlen by apply strlen_chars.
  assert (list_ascii_of_string suffix = drop (Z.to_nat d) l) as Hpost.
  { unfold suffix. rewrite chars_slice by lia. fold l.
    apply take_ge. rewrite length_drop. lia. }
  assert (Path.strlen suffix = Path.strlen f - d) as Hslen.
  { rewrite (strlen_chars suffix), Hpost, length_drop. lia. }
  assert (l = (take (Z.to_nat d) l ++ drop (Z.to_nat d) l)%list) as Hsplit
    by (by rewrite take_drop).
  assert (Forall (λ c, Path.isSep c = false) (drop (Z.to_nat d) l)) as Hplain_post
    by (by apply Forall_drop).
  assert (Forall (λ c, Path.isSep c = false) (take (Z.to_nat d) l)) as Hplain_pre
    by (by apply Forall_take).
  unfold Path.basename. fold l. rewrite Hslen.
  replace ((0 <? Path.strlen f - d) && (Path.strlen f - d <=? Path.strlen f)) with true
    by (symmetry; apply andb_true_intro; split; [apply Z.ltb_lt | apply Z.leb_le]; lia).
  replace (String.eqb suffix f) with false.
  2:{ symmetry. apply String.eqb_neq. intros Heq.
      apply (f_equal Path.strlen) in Heq. lia. }
  cbv iota zeta.
  assert (rev l = (rev (drop (Z.to_nat d) l) ++ rev (take (Z.to_nat d) l))%list) as ->.
  { rewrite <- rev_app_distr. by rewrite <- Hsplit. }
  rewrite basename_suffix_loop_app by (by apply Forall_rev).
  destruct (basename_suffix_loop_match suffix (drop (Z.to_nat d) l) [] (Path.strlen f - 1)
              (Path.mkBaseScan 0 (-1) true (Path.strlen f - d - 1) (-1)))
    as (Hs & He & Hi).
  { by rewrite app_nil_r. }
  { done. }
  { intros Hnil. apply (f_equal length) in Hnil. rewrite length_drop in Hnil.
    simpl in Hnil. lia. }
  { simpl. rewrite length_drop. lia. }
  match goal with
  | |- context [Path.basename_suffix_loop suffix (rev (take _ _)) ?i ?st] =>
      destruct (basename_suffix_loop_idle suffix (rev (take (Z.to_nat d) l)) i st)
        as (Hs' & He'); [by apply Forall_rev | exact Hi |]
  end.
  rewrite Hs', He', Hs, He. simpl Path.base_start.
  rewrite length_drop.
  replace (Path.strlen f - 1 - Z.of_nat (length l - Z.to_nat d) + 1) with d by lia.
  replace (0 =? d) with false by (symmetry; apply Z.eqb_neq; lia).
  replace (d =? -1) with false by (symmetry; apply Z.eqb_neq; lia).
  reflexivity.
Qed.

(** The two fields that [templateOptions] makes of a plain file name put the
    name together again. *)
Lemma stem_extname_plain f : plainName f → stem f +:+ Path.extname f = f.
Proof.
  intros Hplain. unfold stem.
  destruct (extname_plain f Hplain) as [->|(d & Hd & ->)].
  - rewrite basename_plain by done.
    apply chars_inj. rewrite chars_append. simpl. apply app_nil_r.
  - rewrite basename_own_suffix by done.
    apply chars_inj. rewrite chars_append, !chars_slice by lia. simpl.
    rewrite drop_0, Z.sub_0_r.
    rewrite (take_ge (drop _ _)) by (rewrite length_drop, strlen_chars; lia).
    apply take_drop.
Qed.

(** The template name of [n.js] is [n]. *)
Lemma stem_js n : plainName n → n ≠ "" → stem (n +:+ ".js") = n.
Proof.
  intros Hplain Hne.
  assert (plainName (n +:+ ".js")) as Hfile.
  { unfold plainName. rewrite chars_append. apply Forall_app. split; [done|].
    simpl. repeat constructor. }
  pose proof (stem_extname_plain _ Hfile) as Hround.
  rewrite extname_js in Hround by done.
  apply chars_inj. apply (f_equal list_ascii_of_string) in Hround.
  rewrite !chars_append in Hround. by apply app_inv_tail in Hround.
Qed.

End PlainNames.

(** X19. The context a template receives splits the new file's name without
    losing anything: for a file name that holds no separator,
    [createdFile.fileName] followed by [createdFile.extension] is the file
    name again, and [createdFile.directoryPath] is the target directory as it
    was given. *)
Theorem templateOptions_splits_file_name host newFileName dir :
  plainName newFileName →
  fileName (createdFile (templateOptions host newFileName dir))
    +:+ extension (createdFile (templateOptions host newFileName dir)) = newFileName
  ∧ directoryPath (createdFile (templateOptions host newFileName dir)) = dir.
Proof. intros Hplain. split; [|reflexivity]. simpl. by apply stem_extname_plain. Qed.

Lemma templateOptions_splits_file_name_witness :
  fileName (createdFile (templateOptions Demo.host "archive.tar.gz" "/work")) = "archive.tar"
  ∧ extension (createdFile (templateOptions Demo.host "archive.tar.gz" "/work")) = ".gz"
  ∧ fileName (createdFile (templateOptions Demo.host "archive.tar.gz" "/work"))
      +:+ extension (createdFile (templateOptions Demo.host "archive.tar.gz" "/work"))
    = "archive.tar.gz".
Proof.
  split; [vm_compute; reflexivity|]. split; [vm_compute; reflexivity|].
  apply (templateOptions_splits_file_name Demo.host "archive.tar.gz" "/work").
  apply (bool_decide_unpack _). vm_compute. exact I.
Defined.

(** X20. The catalog and the re-validation agree on [".js"] files: an entry
    of the catalog whose file is [n.js], for a name [n] that is not empty and
    holds no separator, is filed under [n], has the name [n], and its path is
    [templateFilePath] of [n].  So when its file is on disk,
    [existsTemplate] finds the template under its name. *)
Theorem useTemplates_js_entry_revalidates host w catalog key t n :
  outcome (useTemplates host) w = Return (Resolved catalog) →
  JsMap.get catalog key = Some t →
  filename t = n +:+ ".js" →
  plainName n → n ≠ "" →
  key = n ∧ name t = n ∧ path t = templateFilePath host n
  ∧ (Fs.existsSync (fs w) (path t) = true →
     outcome (existsTemplate host (name t)) w = Return true).
Proof.
  intros Hrun Hget Hfile Hplain Hne.
  unfold outcome, useTemplates, bind, fs_read, onReaddir, ret in Hrun.
  cbv beta iota in Hrun.
  destruct (Fs.readdir (fs w) (templatesDirPath host)) as [reason|files]; [done|].
  simpl in Hrun. injection Hrun as <-.
  rewrite fold_addTemplate_get in Hget. simpl in Hget.
  unfold firstWithStem in Hget.
  destruct (List.find _ files) as [f|] eqn:Hfind; [|done].
  apply List.find_some in Hfind as [_ Hstem]. apply String.eqb_eq in Hstem.
  simpl in Hget. injection Hget as <-. simpl in *. subst f.
  rewrite stem_js in * by done. subst key.
  repeat split; try done.
  intros Hexists. unfold outcome, existsTemplate, fs_read. simpl. f_equal.
  exact Hexists.
Qed.

Lemma useTemplates_js_entry_revalidates_witness :
  ∃ catalog t,
    outcome (useTemplates Demo.host) Demo.stocked = Return (Resolved catalog)
    ∧ JsMap.get catalog "greet" = Some t
    ∧ name t = "greet"
    ∧ outcome (existsTemplate Demo.host (name t)) Demo.stocked = Return true.
Proof.
  eexists _, (mkTemplate "greet" "greet.js" "/ext/out/templates/greet.js").
  split; [vm_compute; reflexivity|]. split; [vm_compute; reflexivity|].
  split; [reflexivity|].
  eapply (useTemplates_js_entry_revalidates Demo.host Demo.stocked _ "greet"
            (mkTemplate "greet" "greet.js" "/ext/out/templates/greet.js") "greet").
  - vm_compute; reflexivity.
  - vm_compute; reflexivity.
  - reflexivity.
  - apply (bool_decide_unpack _). vm_compute. exact I.
  - discriminate.
  - vm_compute; reflexivity.
Defined.

(** What is directly inside a directory shows up in its listing. *)
Lemma readdir_lists_entry (disk : gmap string Fs.Node) dir p :
  disk !! dir = Some Fs.Directory →
  is_Some (disk !! p) → p ≠ dir → Path.dirname p = dir →
  ∃ files, Fs.readdir disk dir = inr files ∧ Path.basename p "" ∈ files.
Proof.
  intros Hdir [node Hp] Hne Hinside. unfold Fs.readdir. rewrite Hdir.
  eexists. split; [reflexivity|].
  rewrite merge_sort_Permutation.
  apply list_elem_of_fmap. exists p. split; [done|].
  apply list_elem_of_filter. split; [done|].
  apply list_elem_of_fmap. exists (p, node). split; [done|].
  by apply elem_of_map_to_list.
Qed.

(** X21. A template that was created is listed: after [createFileTemplate]
    succeeded for a name [n] that is not empty and holds no separator, with
    the new file lying directly in the templates directory under the name
    [n.js], [useTemplates] resolves and its catalog has the key [n]. *)
Theorem createFileTemplate_then_listed host n c w p w' :
  createFileTemplate host n c w = (Return p, w') →
  Path.dirname p = templatesDirPath host →
  Path.basename p "" = n +:+ ".js" →
  plainName n → n ≠ "" →
  ∃ catalog,
    outcome (useTemplates host) w' = Return (Resolved catalog)
    ∧ JsMap.has catalog n = true.
Proof.
  intros Hrun Hinside Hbase Hplain Hne.
  assert (fs w' !! templatesDirPath host = Some Fs.Directory
          ∧ is_Some (fs w' !! p) ∧ p ≠ templatesDirPath host) as (Hdir & Hp & Hneq).
  { rewrite createFileTemplate_run in Hrun.
    destruct (Fs.existsSync (fs w) (templateFilePath host n)); [done|].
    destruct (createTemplatesDirIfNotExists host w) as [[[]|e] w1]; [|done].
    destruct (Fs.writeFileSync (fs w1) (templateFilePath host n) c) as [err|disk] eqn:Hw;
      [done|].
    injection Hrun as <- <-. simpl. unfold Fs.writeFileSync, Fs.parentOf in Hw.
    rewrite Hinside in Hw.
    assert (templateFilePath host n ≠ templatesDirPath host) as Hneq.
    { intros Heq. rewrite Heq in Hw.
      by destruct (fs w1 !! templatesDirPath host) as [[?|]|]. }
    destruct (fs w1 !! templatesDirPath host) as [[?|]|] eqn:Hdir;
      destruct (fs w1 !! templateFilePath host n) as [[?|]|]; try done;
      injection Hw as <-;
      (split; [by rewrite lookup_insert_ne|]);
      (split; [rewrite lookup_insert_eq; by eexists | done]). }
  destruct (readdir_lists_entry (fs w') (templatesDirPath host) p Hdir Hp Hneq Hinside)
    as (files & Hlisting & Hin).
  exists (fold_left (addTemplate (templatesDirPath host)) files JsMap.empty). split.
  { unfold outcome, useTemplates, bind, fs_read, onReaddir, ret. cbv beta iota.
    by rewrite Hlisting. }
  unfold JsMap.has. rewrite fold_addTemplate_get. simpl.
  assert (is_Some (firstWithStem n files)) as [f Hf].
  { apply firstWithStem_is_Some. apply list_elem_of_fmap.
    exists (Path.basename p ""). split; [|done]. rewrite Hbase. symmetry.
    by apply stem_js. }
  by rewrite Hf.
Qed.

Lemma createFileTemplate_then_listed_witness :
  ∃ catalog,
    outcome (useTemplates Demo.host)
      (worldAfter (createFileTemplate Demo.host "header" "// header") Demo.fresh)
      = Return (Resolved catalog)
    ∧ JsMap.has catalog "header" = true.
Proof.
  apply (createFileTemplate_then_listed Demo.host "header" "// header" Demo.fresh
           "/ext/out/templates/header.js"
           (worldAfter (createFileTemplate Demo.host "header" "// header") Demo.fresh)).
  - vm_compute; reflexivity.
  - vm_compute; reflexivity.
  - vm_compute; reflexivity.
  - apply (bool_decide_unpack _). vm_compute. exact I.
  - discriminate.
Defined.

(** X22. Every entry directly inside the templates directory gets into the
    catalog, be it a file with any extension or none, or a directory: the
    listing is not filtered, and the stem of the entry's name is a key. *)
Theorem useTemplates_lists_every_entry host w q :
  fs w !! templatesDirPath host = Some Fs.Directory →
  is_Some (fs w !! q) →
  q ≠ templatesDirPath host →
  Path.dirname q = templatesDirPath host →
  ∃ catalog,
    outcome (useTemplates host) w = Return (Resolved catalog)
    ∧ JsMap.has catalog (stem (Path.basename q "")) = true.
Proof.
  intros Hdir Hq Hne Hinside.
  destruct (readdir_lists_entry (fs w) (templatesDirPath host) q Hdir Hq Hne Hinside)
    as (files & Hlisting & Hin).
  exists (fold_left (addTemplate (templatesDirPath host)) files JsMap.empty). split.
  { unfold outcome, useTemplates, bind, fs_read, onReaddir, ret. cbv beta iota.
    by rewrite Hlisting. }
  unfold JsMap.has. rewrite fold_addTemplate_get. simpl.
  assert (is_Some (firstWithStem (stem (Path.basename q "")) files)) as [f Hf].
  { apply firstWithStem_is_Some. apply list_elem_of_fmap. by exists (Path.basename q ""). }
  by rewrite Hf.
Qed.

Lemma useTemplates_lists_every_entry_witness :
  fs Demo.nested !! "/ext/out/templates/shared" = Some Fs.Directory
  ∧ ∃ catalog,
      outcome (useTemplates Demo.host) Demo.nested = Return (Resolved catalog)
      ∧ JsMap.has catalog "shared" = true.
Proof.
  split; [vm_compute; reflexivity|].
  apply (useTemplates_lists_every_entry Demo.host Demo.nested "/ext/out/templates/shared").
  - vm_compute; reflexivity.
  - vm_compute. by eexists.
  - discriminate.
  - vm_compute; reflexivity.
Defined.
